(** * Lead qualification engine and in-memory lead repository

    A shallow embedding of [lead_management.py]: the [ScoringCriteria] and
    [Lead] data classes, the five sub-score rubrics, [qualify_lead] and the
    [LeadManager] operations built around it (add, update, delete, query,
    interaction log, criteria replacement, pipeline summary, export and bulk
    ingestion), and of the local commands of [chat_interface.py], followed by
    the properties these operations have.

    Conventions of the embedding.
    - A Python [int] is a [Z]; [Optional[int]] is [option Z].
    - A Python [str] is a [string] of ASCII characters; [str.lower] lowers the
      letters A-Z.
    - A Python [float] is an element of a type [F] carrying the operations of
      the class [PyFloat].  Two instances are given: [binary64], IEEE 754
      double precision with round-to-nearest-even computed by the Standard
      Library's [SpecFloat], and [exact], rational arithmetic, in which the
      algebraic properties of the rubric are proved.
    - The insertion-ordered dictionaries of [LeadManager] are association
      lists with the update-in-place / append-at-end behaviour of [dict].
    - [uuid.uuid4()] and [datetime.now()] are inputs: every operation that
      calls them receives their results as arguments.
    - An exception is a value of [exn]; an operation that can raise returns a
      [result]. *)

From Stdlib Require Import ZArith QArith Qabs Qround Bool List String Ascii Lia Lqa.
From Stdlib Require Import SpecFloat Permutation.
Import ListNotations.

Local Open Scope Z_scope.

(* ================================================================== *)
(** * Floating-point interface *)
(* ================================================================== *)

(** The operations the source performs on [float] values. *)
Class PyFloat (F : Type) : Type := {
  of_int : Z -> F;            (* float(n), and literals such as 50.0      *)
  of_dec : Z -> nat -> F;     (* the literal m / 10^k, e.g. 0.25 = 25,2   *)
  fadd   : F -> F -> F;       (* x + y                                    *)
  fsub   : F -> F -> F;       (* x - y                                    *)
  fmul   : F -> F -> F;       (* x * y                                    *)
  fabs   : F -> F;            (* abs(x)                                   *)
  flt    : F -> F -> bool;    (* x < y                                    *)
  fge    : F -> F -> bool;    (* x >= y                                   *)
  to_int : F -> Z;            (* int(x): truncation toward zero           *)
  round2 : F -> F             (* round(x, 2)                              *)
}.

(** Nearest integer to [a / b] for [b > 0], ties going to the even one. *)
Definition round_half_even (a b : Z) : Z :=
  let q := a / b in
  match (2 * (a mod b)) ?= b with
  | Lt => q
  | Gt => q + 1
  | Eq => if Z.even q then q else q + 1
  end.

(** ** IEEE 754 binary64 *)

Module Binary64.

Definition prec : Z := 53.
Definition emax : Z := 1024.

(** [float(n)] rounds the integer to the nearest double.  (Python raises
    OverflowError where this yields an infinity, from 2^1024 on.) *)
Definition of_int (n : Z) : spec_float := binary_normalize prec emax n 0 false.

(** The double nearest to the decimal [m / 10^k]: one correctly rounded
    division of two exact integers. *)
Definition dec_to_float (s : bool) (m : positive) (k : nat) : spec_float :=
  SFdiv prec emax (S754_finite s m 0)
                  (S754_finite false (Z.to_pos (10 ^ Z.of_nat k)) 0).

Definition of_dec (m : Z) (k : nat) : spec_float :=
  match m with
  | Z0 => S754_zero false
  | Zpos p => dec_to_float false p k
  | Zneg p => dec_to_float true p k
  end.

Definition add := SFadd prec emax.
Definition sub := SFsub prec emax.
Definition mul := SFmul prec emax.
Definition lt := SFltb.
Definition ge (x y : spec_float) : bool := SFleb y x.

(** [int(x)] drops the fractional part.  (Python raises on infinities and
    NaN, where this yields 0.) *)
Definition to_int (x : spec_float) : Z :=
  match x with
  | S754_finite s m e =>
      let a := if 0 <=? e then Zpos m * 2 ^ e else Zpos m / 2 ^ (- e) in
      if s then - a else a
  | _ => 0
  end.

(** [round(x, 2)]: the exact value of [x] is rounded half-even to two
    decimals and the resulting decimal is converted back to the nearest
    double; zeros, infinities, NaN and integer-valued doubles are returned
    as they are, and a result of zero keeps the sign of [x]. *)
Definition round2 (x : spec_float) : spec_float :=
  match x with
  | S754_finite s m e =>
      if 0 <=? e then x
      else match round_half_even (Zpos m * 100) (2 ^ (- e)) with
           | Zpos p => dec_to_float s p 2
           | _ => S754_zero s
           end
  | _ => x
  end.

End Binary64.

#[export] Instance binary64 : PyFloat spec_float := {
  of_int := Binary64.of_int;
  of_dec := Binary64.of_dec;
  fadd := Binary64.add;
  fsub := Binary64.sub;
  fmul := Binary64.mul;
  fabs := SFabs;
  flt := Binary64.lt;
  fge := Binary64.ge;
  to_int := Binary64.to_int;
  round2 := Binary64.round2
}.

(** ** Exact rational arithmetic *)

Module Exact.

Definition of_dec (m : Z) (k : nat) : Q := m # Z.to_pos (10 ^ Z.of_nat k).
Definition lt (x y : Q) : bool := negb (Qle_bool y x).
Definition ge (x y : Q) : bool := Qle_bool y x.
Definition to_int (x : Q) : Z := Z.quot (Qnum x) (Zpos (Qden x)).
Definition round2 (x : Q) : Q :=
  round_half_even (Qnum x * 100) (Zpos (Qden x)) # 100.

End Exact.

#[export] Instance exact : PyFloat Q := {|
  of_int := inject_Z;
  of_dec := Exact.of_dec;
  fadd := Qplus;
  fsub := Qminus;
  fmul := Qmult;
  fabs := Qabs;
  flt := Exact.lt;
  fge := Exact.ge;
  to_int := Exact.to_int;
  round2 := Exact.round2
|}.

(* ================================================================== *)
(** * Strings *)
(* ================================================================== *)

Local Open Scope string_scope.

(** [str.lower] on ASCII text. *)
Definition lower_ascii (c : ascii) : ascii :=
  let n := nat_of_ascii c in
  if (Nat.leb 65 n && Nat.leb n 90)%bool then ascii_of_nat (n + 32) else c.

Fixpoint lower (s : string) : string :=
  match s with
  | EmptyString => EmptyString
  | String c s' => String (lower_ascii c) (lower s')
  end.

(** [k in t] for two strings: [k] occurs in [t] as a contiguous substring. *)
Fixpoint contains (k t : string) : bool :=
  (prefix k t ||
   match t with
   | EmptyString => false
   | String _ t' => contains k t'
   end)%bool.

(** [sep.join(l)]. *)
Definition join (sep : string) (l : list string) : string := String.concat sep l.

(** Truth value of a string: the empty string is false. *)
Definition truthy (s : string) : bool := negb (s =? "").

(** Truth value of an [Optional[str]]: [None] and the empty string are false. *)
Definition truthy_opt (s : option string) : bool :=
  match s with
  | Some s => truthy s
  | None => false
  end.

(* ================================================================== *)
(** * Exceptions and results *)
(* ================================================================== *)

(** The exception classes the modelled code raises, with their message (or
    missing key). *)
Inductive exn : Type :=
| ValueError (msg : string)
| AttributeError (msg : string)
| KeyError (key : string).

Inductive result (A : Type) : Type :=
| Ok (a : A)
| Raise (e : exn).

Arguments Ok {A} a.
Arguments Raise {A} e.

Definition bind {A B : Type} (r : result A) (k : A -> result B) : result B :=
  match r with
  | Ok a => k a
  | Raise e => Raise e
  end.

Notation "x <- e ;; k" := (bind e (fun x => k))
  (at level 61, e at next level, right associativity).



(* ================================================================== *)
(** * Insertion-ordered dictionaries with string keys *)
(* ================================================================== *)

Section Dict.
Context {V : Type}.

Definition dict : Type := list (string * V).

(** [d.get(k)] *)
Fixpoint dict_get (k : string) (d : dict) : option V :=
  match d with
  | [] => None
  | (k', v) :: d' => if k' =? k then Some v else dict_get k d'
  end.

(** [k in d] *)
Definition dict_mem (k : string) (d : dict) : bool :=
  match dict_get k d with
  | Some _ => true
  | None => false
  end.

(** [d[k] = v]: an existing key keeps its position, a new one goes last. *)
Fixpoint dict_set (k : string) (v : V) (d : dict) : dict :=
  match d with
  | [] => [(k, v)]
  | (k', v') :: d' =>
      if k' =? k then (k, v) :: d' else (k', v') :: dict_set k v d'
  end.

(** [del d[k]] *)
Fixpoint dict_del (k : string) (d : dict) : dict :=
  match d with
  | [] => []
  | (k', v') :: d' => if k' =? k then d' else (k', v') :: dict_del k d'
  end.

Definition dict_keys (d : dict) : list string := map fst d.
Definition dict_values (d : dict) : list V := map snd d.

End Dict.

Arguments dict V : clear implicits.

(* ================================================================== *)
(** * Data model *)
(* ================================================================== *)

Inductive LeadStatus : Type :=
| NEW | QUALIFIED | CONTACTED | MEETING_SCHEDULED
| PROPOSAL_SENT | CLOSED_WON | CLOSED_LOST | UNQUALIFIED.

Inductive LeadSource : Type :=
| WEBSITE | LINKEDIN | EMAIL_CAMPAIGN | REFERRAL
| COLD_OUTREACH | TRADE_SHOW | WEBINAR | OTHER.

(** [member.value] *)
Definition LeadStatus_value (s : LeadStatus) : string :=
  match s with
  | NEW => "new"
  | QUALIFIED => "qualified"
  | CONTACTED => "contacted"
  | MEETING_SCHEDULED => "meeting_scheduled"
  | PROPOSAL_SENT => "proposal_sent"
  | CLOSED_WON => "closed_won"
  | CLOSED_LOST => "closed_lost"
  | UNQUALIFIED => "unqualified"
  end.

Definition LeadSource_value (s : LeadSource) : string :=
  match s with
  | WEBSITE => "website"
  | LINKEDIN => "linkedin"
  | EMAIL_CAMPAIGN => "email_campaign"
  | REFERRAL => "referral"
  | COLD_OUTREACH => "cold_outreach"
  | TRADE_SHOW => "trade_show"
  | WEBINAR => "webinar"
  | OTHER => "other"
  end.

Definition LeadStatus_members : list LeadStatus :=
  [NEW; QUALIFIED; CONTACTED; MEETING_SCHEDULED;
   PROPOSAL_SENT; CLOSED_WON; CLOSED_LOST; UNQUALIFIED].

Definition LeadSource_members : list LeadSource :=
  [WEBSITE; LINKEDIN; EMAIL_CAMPAIGN; REFERRAL;
   COLD_OUTREACH; TRADE_SHOW; WEBINAR; OTHER].

(** [LeadStatus(v)] and [LeadSource(v)]: the member whose value is [v];
    [None] stands for the ValueError of a value that names no member. *)
Definition LeadStatus_of_value (v : string) : option LeadStatus :=
  find (fun s => LeadStatus_value s =? v) LeadStatus_members.

Definition LeadSource_of_value (v : string) : option LeadSource :=
  find (fun s => LeadSource_value s =? v) LeadSource_members.

Definition LeadStatus_eqb (a b : LeadStatus) : bool :=
  LeadStatus_value a =? LeadStatus_value b.

(** What an enum-typed field holds at run time.  The dataclass does not check
    its annotations, so the field holds either a member of the enumeration or
    the plain string a caller stored there. *)
Inductive enum_or_str (E : Type) : Type :=
| Member (e : E)
| RawStr (s : string).

Arguments Member {E} e.
Arguments RawStr {E} s.

(** [field == member].  The enumerations derive from [Enum] only, so a plain
    string equals no member. *)
Definition status_is (x : enum_or_str LeadStatus) (s : LeadStatus) : bool :=
  match x with
  | Member e => LeadStatus_eqb e s
  | RawStr _ => false
  end.

(** [field.value]: a string has no such attribute. *)
Definition value_of {E : Type} (value : E -> string) (x : enum_or_str E)
  : result string :=
  match x with
  | Member e => Ok (value e)
  | RawStr _ => Raise (AttributeError "'str' object has no attribute 'value'")
  end.

(** What a timestamp field holds at run time: [None], a string (the fields are
    annotated [str] and the manager stores [str(datetime.now())]), or a
    [datetime] object, represented by its ISO-8601 text. *)
Inductive timeval : Type :=
| TNone
| TStr (s : string)
| TDatetime (iso : string).

(** [t.isoformat()]: only a [datetime] has the method. *)
Definition isoformat (t : timeval) : result string :=
  match t with
  | TDatetime iso => Ok iso
  | TStr _ => Raise (AttributeError "'str' object has no attribute 'isoformat'")
  | TNone => Raise (AttributeError "'NoneType' object has no attribute 'isoformat'")
  end.

(** Truth value of a timestamp field. *)
Definition timeval_truthy (t : timeval) : bool :=
  match t with
  | TNone => false
  | TStr s => truthy s
  | TDatetime _ => true
  end.

(** An entry of a lead's interaction log. *)
Record Interaction : Type := mkInteraction {
  interaction_id : string;
  interaction_timestamp : string;
  interaction_type : string;
  interaction_details : string
}.

(** A raw lead dictionary as the generator delivers it (decoded JSON): every
    key may be absent. *)
Record RawLead : Type := mkRawLead {
  raw_first_name : option string;
  raw_last_name : option string;
  raw_email : option string;
  raw_company : option string;
  raw_phone : option string;
  raw_title : option string;
  raw_lead_source : option string;
  raw_status : option string;
  raw_company_size : option Z;
  raw_annual_revenue : option Z;
  raw_budget : option Z;
  raw_decision_maker : option bool;
  raw_pain_points : option (list string);
  raw_timeline : option string;
  raw_notes : option string;
  raw_tags : option (list string)
}.

(** [data.get(key, default)] *)
Definition get_or {A : Type} (default : A) (x : option A) : A :=
  match x with
  | Some a => a
  | None => default
  end.

(** [data[key]] *)
Definition item {A : Type} (key : string) (x : option A) : result A :=
  match x with
  | Some a => Ok a
  | None => Raise (KeyError key)
  end.

Section Engine.

Context {F : Type} {PF : PyFloat F}.

Record ScoringCriteria : Type := mkScoringCriteria {
  company_size_weight : F;
  budget_weight : F;
  authority_weight : F;
  need_weight : F;
  timeline_weight : F;
  qualified_threshold : F;
  hot_lead_threshold : F
}.

(** [ScoringCriteria()] *)
Definition default_criteria : ScoringCriteria := {|
  company_size_weight := of_dec 25 2;
  budget_weight := of_dec 30 2;
  authority_weight := of_dec 20 2;
  need_weight := of_dec 15 2;
  timeline_weight := of_dec 10 2;
  qualified_threshold := of_int 70;
  hot_lead_threshold := of_int 85
|}.

Definition weight_total (c : ScoringCriteria) : F :=
  fadd (fadd (fadd (fadd (company_size_weight c) (budget_weight c))
                   (authority_weight c))
             (need_weight c))
       (timeline_weight c).

Definition validate_weights (c : ScoringCriteria) : bool :=
  flt (fabs (fsub (weight_total c) (of_int 1))) (of_dec 1 3).

Record Lead : Type := mkLead {
  first_name : string;
  last_name : string;
  email : string;
  company : string;
  phone : option string;
  title : option string;
  lead_source : enum_or_str LeadSource;
  status : enum_or_str LeadStatus;
  created_at : timeval;
  updated_at : timeval;
  company_size : option Z;
  annual_revenue : option Z;
  budget : option Z;
  decision_maker : bool;
  pain_points : list string;
  timeline : option string;
  qualification_score : F;
  notes : string;
  tags : list string;
  id : string;
  last_contacted : timeval;
  next_follow_up : timeval
}.

Definition set_first_name (v : string) (l : Lead) : Lead :=
  mkLead v (last_name l) (email l) (company l) (phone l) (title l)
    (lead_source l) (status l) (created_at l) (updated_at l)
    (company_size l) (annual_revenue l) (budget l) (decision_maker l)
    (pain_points l) (timeline l) (qualification_score l) (notes l) (tags l)
    (id l) (last_contacted l) (next_follow_up l).

Definition set_last_name (v : string) (l : Lead) : Lead :=
  mkLead (first_name l) v (email l) (company l) (phone l) (title l)
    (lead_source l) (status l) (created_at l) (updated_at l)
    (company_size l) (annual_revenue l) (budget l) (decision_maker l)
    (pain_points l) (timeline l) (qualification_score l) (notes l) (tags l)
    (id l) (last_contacted l) (next_follow_up l).

Definition set_email (v : string) (l : Lead) : Lead :=
  mkLead (first_name l) (last_name l) v (company l) (phone l) (title l)
    (lead_source l) (status l) (created_at l) (updated_at l)
    (company_size l) (annual_revenue l) (budget l) (decision_maker l)
    (pain_points l) (timeline l) (qualification_score l) (notes l) (tags l)
    (id l) (last_contacted l) (next_follow_up l).

Definition set_company (v : string) (l : Lead) : Lead :=
  mkLead (first_name l) (last_name l) (email l) v (phone l) (title l)
    (lead_source l) (status l) (created_at l) (updated_at l)
    (company_size l) (annual_revenue l) (budget l) (decision_maker l)
    (pain_points l) (timeline l) (qualification_score l) (notes l) (tags l)
    (id l) (last_contacted l) (next_follow_up l).

Definition set_phone (v : option string) (l : Lead) : Lead :=
  mkLead (first_name l) (last_name l) (email l) (company l) v (title l)
    (lead_source l) (status l) (created_at l) (updated_at l)
    (company_size l) (annual_revenue l) (budget l) (decision_maker l)
    (pain_points l) (timeline l) (qualification_score l) (notes l) (tags l)
    (id l) (last_contacted l) (next_follow_up l).

Definition set_title (v : option string) (l : Lead) : Lead :=
  mkLead (first_name l) (last_name l) (email l) (company l) (phone l) v
    (lead_source l) (status l) (created_at l) (updated_at l)
    (company_size l) (annual_revenue l) (budget l) (decision_maker l)
    (pain_points l) (timeline l) (qualification_score l) (notes l) (tags l)
    (id l) (last_contacted l) (next_follow_up l).

Definition set_lead_source (v : enum_or_str LeadSource) (l : Lead) : Lead :=
  mkLead (first_name l) (last_name l) (email l) (company l) (phone l)
    (title l) v (status l) (created_at l) (updated_at l) (company_size l)
    (annual_revenue l) (budget l) (decision_maker l) (pain_points l)
    (timeline l) (qualification_score l) (notes l) (tags l) (id l)
    (last_contacted l) (next_follow_up l).

Definition set_status (v : enum_or_str LeadStatus) (l : Lead) : Lead :=
  mkLead (first_name l) (last_name l) (email l) (company l) (phone l)
    (title l) (lead_source l) v (created_at l) (updated_at l)
    (company_size l) (annual_revenue l) (budget l) (decision_maker l)
    (pain_points l) (timeline l) (qualification_score l) (notes l) (tags l)
    (id l) (last_contacted l) (next_follow_up l).

Definition set_created_at (v : timeval) (l : Lead) : Lead :=
  mkLead (first_name l) (last_name l) (email l) (company l) (phone l)
    (title l) (lead_source l) (status l) v (updated_at l) (company_size l)
    (annual_revenue l) (budget l) (decision_maker l) (pain_points l)
    (timeline l) (qualification_score l) (notes l) (tags l) (id l)
    (last_contacted l) (next_follow_up l).

Definition set_updated_at (v : timeval) (l : Lead) : Lead :=
  mkLead (first_name l) (last_name l) (email l) (company l) (phone l)
    (title l) (lead_source l) (status l) (created_at l) v (company_size l)
    (annual_revenue l) (budget l) (decision_maker l) (pain_points l)
    (timeline l) (qualification_score l) (notes l) (tags l) (id l)
    (last_contacted l) (next_follow_up l).

Definition set_company_size (v : option Z) (l : Lead) : Lead :=
  mkLead (first_name l) (last_name l) (email l) (company l) (phone l)
    (title l) (lead_source l) (status l) (created_at l) (updated_at l) v
    (annual_revenue l) (budget l) (decision_maker l) (pain_points l)
    (timeline l) (qualification_score l) (notes l) (tags l) (id l)
    (last_contacted l) (next_follow_up l).

Definition set_annual_revenue (v : option Z) (l : Lead) : Lead :=
  mkLead (first_name l) (last_name l) (email l) (company l) (phone l)
    (title l) (lead_source l) (status l) (created_at l) (updated_at l)
    (company_size l) v (budget l) (decision_maker l) (pain_points l)
    (timeline l) (qualification_score l) (notes l) (tags l) (id l)
    (last_contacted l) (next_follow_up l).

Definition set_budget (v : option Z) (l : Lead) : Lead :=
  mkLead (first_name l) (last_name l) (email l) (company l) (phone l)
    (title l) (lead_source l) (status l) (created_at l) (updated_at l)
    (company_size l) (annual_revenue l) v (decision_maker l) (pain_points l)
    (timeline l) (qualification_score l) (notes l) (tags l) (id l)
    (last_contacted l) (next_follow_up l).

Definition set_decision_maker (v : bool) (l : Lead) : Lead :=
  mkLead (first_name l) (last_name l) (email l) (company l) (phone l)
    (title l) (lead_source l) (status l) (created_at l) (updated_at l)
    (company_size l) (annual_revenue l) (budget l) v (pain_points l)
    (timeline l) (qualification_score l) (notes l) (tags l) (id l)
    (last_contacted l) (next_follow_up l).

Definition set_pain_points (v : list string) (l : Lead) : Lead :=
  mkLead (first_name l) (last_name l) (email l) (company l) (phone l)
    (title l) (lead_source l) (status l) (created_at l) (updated_at l)
    (company_size l) (annual_revenue l) (budget l) (decision_maker l) v
    (timeline l) (qualification_score l) (notes l) (tags l) (id l)
    (last_contacted l) (next_follow_up l).

Definition set_timeline (v : option string) (l : Lead) : Lead :=
  mkLead (first_name l) (last_name l) (email l) (company l) (phone l)
    (title l) (lead_source l) (status l) (created_at l) (updated_at l)
    (company_size l) (annual_revenue l) (budget l) (decision_maker l)
    (pain_points l) v (qualification_score l) (notes l) (tags l) (id l)
    (last_contacted l) (next_follow_up l).

Definition set_qualification_score (v : F) (l : Lead) : Lead :=
  mkLead (first_name l) (last_name l) (email l) (company l) (phone l)
    (title l) (lead_source l) (status l) (created_at l) (updated_at l)
    (company_size l) (annual_revenue l) (budget l) (decision_maker l)
    (pain_points l) (timeline l) v (notes l) (tags l) (id l)
    (last_contacted l) (next_follow_up l).

Definition set_notes (v : string) (l : Lead) : Lead :=
  mkLead (first_name l) (last_name l) (email l) (company l) (phone l)
    (title l) (lead_source l) (status l) (created_at l) (updated_at l)
    (company_size l) (annual_revenue l) (budget l) (decision_maker l)
    (pain_points l) (timeline l) (qualification_score l) v (tags l) (id l)
    (last_contacted l) (next_follow_up l).

Definition set_tags (v : list string) (l : Lead) : Lead :=
  mkLead (first_name l) (last_name l) (email l) (company l) (phone l)
    (title l) (lead_source l) (status l) (created_at l) (updated_at l)
    (company_size l) (annual_revenue l) (budget l) (decision_maker l)
    (pain_points l) (timeline l) (qualification_score l) (notes l) v (id l)
    (last_contacted l) (next_follow_up l).

Definition set_id (v : string) (l : Lead) : Lead :=
  mkLead (first_name l) (last_name l) (email l) (company l) (phone l)
    (title l) (lead_source l) (status l) (created_at l) (updated_at l)
    (company_size l) (annual_revenue l) (budget l) (decision_maker l)
    (pain_points l) (timeline l) (qualification_score l) (notes l) (tags l)
    v (last_contacted l) (next_follow_up l).

Definition set_last_contacted (v : timeval) (l : Lead) : Lead :=
  mkLead (first_name l) (last_name l) (email l) (company l) (phone l)
    (title l) (lead_source l) (status l) (created_at l) (updated_at l)
    (company_size l) (annual_revenue l) (budget l) (decision_maker l)
    (pain_points l) (timeline l) (qualification_score l) (notes l) (tags l)
    (id l) v (next_follow_up l).

Definition set_next_follow_up (v : timeval) (l : Lead) : Lead :=
  mkLead (first_name l) (last_name l) (email l) (company l) (phone l)
    (title l) (lead_source l) (status l) (created_at l) (updated_at l)
    (company_size l) (annual_revenue l) (budget l) (decision_maker l)
    (pain_points l) (timeline l) (qualification_score l) (notes l) (tags l)
    (id l) (last_contacted l) v.

Inductive update : Type :=
| Set_first_name (v : string)
| Set_last_name (v : string)
| Set_email (v : string)
| Set_company (v : string)
| Set_phone (v : option string)
| Set_title (v : option string)
| Set_lead_source (v : enum_or_str LeadSource)
| Set_status (v : enum_or_str LeadStatus)
| Set_created_at (v : timeval)
| Set_updated_at (v : timeval)
| Set_company_size (v : option Z)
| Set_annual_revenue (v : option Z)
| Set_budget (v : option Z)
| Set_decision_maker (v : bool)
| Set_pain_points (v : list string)
| Set_timeline (v : option string)
| Set_qualification_score (v : F)
| Set_notes (v : string)
| Set_tags (v : list string)
| Set_id (v : string)
| Set_last_contacted (v : timeval)
| Set_next_follow_up (v : timeval)
| Set_unknown (key : string).

Definition key_of (u : update) : string :=
  match u with
  | Set_first_name _ => "first_name"
  | Set_last_name _ => "last_name"
  | Set_email _ => "email"
  | Set_company _ => "company"
  | Set_phone _ => "phone"
  | Set_title _ => "title"
  | Set_lead_source _ => "lead_source"
  | Set_status _ => "status"
  | Set_created_at _ => "created_at"
  | Set_updated_at _ => "updated_at"
  | Set_company_size _ => "company_size"
  | Set_annual_revenue _ => "annual_revenue"
  | Set_budget _ => "budget"
  | Set_decision_maker _ => "decision_maker"
  | Set_pain_points _ => "pain_points"
  | Set_timeline _ => "timeline"
  | Set_qualification_score _ => "qualification_score"
  | Set_notes _ => "notes"
  | Set_tags _ => "tags"
  | Set_id _ => "id"
  | Set_last_contacted _ => "last_contacted"
  | Set_next_follow_up _ => "next_follow_up"
  | Set_unknown key => key
  end.

Definition setattr (l : Lead) (u : update) : Lead :=
  match u with
  | Set_first_name v => set_first_name v l
  | Set_last_name v => set_last_name v l
  | Set_email v => set_email v l
  | Set_company v => set_company v l
  | Set_phone v => set_phone v l
  | Set_title v => set_title v l
  | Set_lead_source v => set_lead_source v l
  | Set_status v => set_status v l
  | Set_created_at v => set_created_at v l
  | Set_updated_at v => set_updated_at v l
  | Set_company_size v => set_company_size v l
  | Set_annual_revenue v => set_annual_revenue v l
  | Set_budget v => set_budget v l
  | Set_decision_maker v => set_decision_maker v l
  | Set_pain_points v => set_pain_points v l
  | Set_timeline v => set_timeline v l
  | Set_qualification_score v => set_qualification_score v l
  | Set_notes v => set_notes v l
  | Set_tags v => set_tags v l
  | Set_id v => set_id v l
  | Set_last_contacted v => set_last_contacted v l
  | Set_next_follow_up v => set_next_follow_up v l
  | Set_unknown _ => l
  end.


(** The properties of [Lead]; both compare against fixed constants. *)
Definition full_name (l : Lead) : string := first_name l ++ " " ++ last_name l.
Definition is_qualified (l : Lead) : bool := fge (qualification_score l) (of_int 70).
Definition is_hot_lead (l : Lead) : bool := fge (qualification_score l) (of_int 85).

(** ** Sub-scores *)

(** [not company_size] holds for [None] and for 0. *)
Definition _score_company_size (company_size : option Z) : F :=
  match company_size with
  | None | Some 0 => of_int 50
  | Some n =>
      if n >=? 1000 then of_int 100
      else if n >=? 500 then of_int 85
      else if n >=? 100 then of_int 70
      else if n >=? 50 then of_int 55
      else if n >=? 10 then of_int 40
      else of_int 25
  end.

(** The banding of a budget that passed the test [if budget:]. *)
Definition budget_band (budget : Z) : F :=
  if budget >=? 100000 then of_int 100
  else if budget >=? 50000 then of_int 80
  else if budget >=? 25000 then of_int 60
  else if budget >=? 10000 then of_int 40
  else of_int 20.

(** [_score_budget(budget, None)], the form of the inner call. *)
Definition _score_budget_no_revenue (budget : Z) : F :=
  if (budget =? 0)%Z then of_int 30 else budget_band budget.

(** [if budget:] and [if annual_revenue:] fail for [None] and for 0; the
    estimate is [int(annual_revenue * 0.05)]. *)
Definition _score_budget (budget annual_revenue : option Z) : F :=
  match budget with
  | Some b =>
      if negb (b =? 0)%Z then budget_band b
      else match annual_revenue with
           | Some r =>
               if negb (r =? 0)%Z
               then _score_budget_no_revenue (to_int (fmul (of_int r) (of_dec 5 2)))
               else of_int 30
           | None => of_int 30
           end
  | None =>
      match annual_revenue with
      | Some r =>
          if negb (r =? 0)%Z
          then _score_budget_no_revenue (to_int (fmul (of_int r) (of_dec 5 2)))
          else of_int 30
      | None => of_int 30
      end
  end.

Definition _score_authority (is_decision_maker : bool) (title : option string) : F :=
  if is_decision_maker then of_int 100
  else if negb (truthy_opt title) then of_int 40
  else
    let title_lower := lower (get_or "" title) in
    if existsb (fun word => contains word title_lower)
               ["ceo"; "cto"; "cfo"; "cmo"; "president"] then of_int 95
    else if existsb (fun word => contains word title_lower)
                    ["director"; "vp"; "vice president"] then of_int 80
    else if contains "manager" title_lower then of_int 65
    else if contains "senior" title_lower then of_int 50
    else of_int 35.

Definition high_value_keywords : list string :=
  ["efficiency"; "cost"; "revenue"; "growth"; "scale";
   "competition"; "manual"; "time"; "error"].

(** [base_score] and [bonus] are integers; the closing [min(n, 100.0)] gives
    the float 100.0 when [100.0 < n] and the integer [n] otherwise, which the
    weighted sum then converts to a float. *)
Definition _score_need (pain_points : list string) : F :=
  match pain_points with
  | [] => of_int 30
  | _ =>
      let base_score := Z.min (Z.of_nat (List.length pain_points) * 25) 100 in
      let pain_text := lower (join " " pain_points) in
      let keyword_matches :=
        Z.of_nat (List.length (filter (fun keyword => contains keyword pain_text)
                                 high_value_keywords)) in
      let bonus := Z.min (keyword_matches * 10) 30 in
      if (100 <? base_score + bonus)%Z then of_int 100
      else of_int (base_score + bonus)
  end.

Definition timeline_scores : dict F :=
  [("immediate", of_int 100); ("3_months", of_int 80);
   ("6_months", of_int 60); ("next_year", of_int 30)].

Definition _score_timeline (timeline : option string) : F :=
  if negb (truthy_opt timeline) then of_int 40
  else get_or (of_int 40) (dict_get (get_or "" timeline) timeline_scores).

(** ** Qualification *)

(** The running [score] of [qualify_lead], before rounding. *)
Definition weighted_score (c : ScoringCriteria) (lead : Lead) : F :=
  let score := of_int 0 in
  let company_score := _score_company_size (company_size lead) in
  let score := fadd score (fmul company_score (company_size_weight c)) in
  let budget_score := _score_budget (budget lead) (annual_revenue lead) in
  let score := fadd score (fmul budget_score (budget_weight c)) in
  let authority_score := _score_authority (decision_maker lead) (title lead) in
  let score := fadd score (fmul authority_score (authority_weight c)) in
  let need_score := _score_need (pain_points lead) in
  let score := fadd score (fmul need_score (need_weight c)) in
  let timeline_score := _score_timeline (timeline lead) in
  let score := fadd score (fmul timeline_score (timeline_weight c)) in
  score.

(** What [qualify_lead] does to the lead object it found: it stores the
    rounded score, then moves a lead whose status is NEW to QUALIFIED or
    UNQUALIFIED. *)
Definition qualify (c : ScoringCriteria) (lead : Lead) : Lead :=
  let lead := set_qualification_score (round2 (weighted_score c lead)) lead in
  if status_is (status lead) NEW then
    if fge (qualification_score lead) (qualified_threshold c)
    then set_status (Member QUALIFIED) lead
    else set_status (Member UNQUALIFIED) lead
  else lead.

(** ** The lead manager *)

Record LeadManager : Type := mkLeadManager {
  leads : dict Lead;
  scoring_criteria : ScoringCriteria;
  interaction_history : dict (list Interaction)
}.

Definition set_leads (d : dict Lead) (m : LeadManager) : LeadManager :=
  mkLeadManager d (scoring_criteria m) (interaction_history m).

Definition set_scoring_criteria (c : ScoringCriteria) (m : LeadManager) : LeadManager :=
  mkLeadManager (leads m) c (interaction_history m).

Definition set_interaction_history (h : dict (list Interaction)) (m : LeadManager)
  : LeadManager :=
  mkLeadManager (leads m) (scoring_criteria m) h.

(** [LeadManager(scoring_criteria)] *)
Definition new_manager (criteria : option ScoringCriteria) : result LeadManager :=
  let c := get_or default_criteria criteria in
  if negb (validate_weights c)
  then Raise (ValueError "Scoring criteria weights must sum to 1.0")
  else Ok (mkLeadManager [] c []).

Definition get_lead (m : LeadManager) (lead_id : string) : option Lead :=
  dict_get lead_id (leads m).

Definition find_lead_by_email (m : LeadManager) (e : string) : option Lead :=
  find (fun lead => lower (email lead) =? lower e) (dict_values (leads m)).

Definition search_leads (m : LeadManager) (query : string) : list Lead :=
  let query := lower query in
  filter (fun lead =>
            contains query
              (lower (full_name lead ++ " " ++ company lead ++ " " ++ email lead)))
         (dict_values (leads m)).

(** The lead object is mutated in place: its dictionary entry keeps its
    position.  An unknown id gives 0.0 and changes nothing. *)
Definition qualify_lead (m : LeadManager) (lead_id : string) : F * LeadManager :=
  match dict_get lead_id (leads m) with
  | None => (of_int 0, m)
  | Some lead =>
      let lead := qualify (scoring_criteria m) lead in
      (qualification_score lead, set_leads (dict_set lead_id lead (leads m)) m)
  end.

Definition validation_message : string :=
  "Lead must have first_name, last_name, email, and company".

Definition duplicate_message (e : string) : string :=
  "Lead with email " ++ e ++ " already exists".

(** [uuid] is the value [str(uuid.uuid4())] would give, [now] the value of
    [str(datetime.now())].  The manager is returned with the outcome, so that
    what an exception leaves behind is visible. *)
Definition add_lead (uuid now : string) (m : LeadManager) (lead : Lead)
  : result string * LeadManager :=
  let lead := if negb (truthy (id lead)) then set_id uuid lead else lead in
  if negb (truthy (first_name lead) && truthy (last_name lead)
           && truthy (email lead) && truthy (company lead))
  then (Raise (ValueError validation_message), m)
  else
    match find_lead_by_email m (email lead) with
    | Some _ => (Raise (ValueError (duplicate_message (email lead))), m)
    | None =>
        let lead := set_updated_at (TStr now) lead in
        let m := set_leads (dict_set (id lead) lead (leads m)) m in
        let m := set_interaction_history
                   (dict_set (id lead) [] (interaction_history m)) m in
        let '(_, m) := qualify_lead m (id lead) in
        (Ok (id lead), m)
    end.

Definition qualification_fields : list string :=
  ["company_size"; "annual_revenue"; "budget";
   "decision_maker"; "timeline"; "pain_points"].

(** [updates] lists the keyword arguments in call order.  Every key is a field
    of the dataclass, carrying a value of the field's type, or a name the lead
    has no attribute for ([Set_unknown]), which [hasattr] filters out. *)
Definition update_lead (now : string) (m : LeadManager) (lead_id : string)
  (updates : list update) : bool * LeadManager :=
  match dict_get lead_id (leads m) with
  | None => (false, m)
  | Some lead =>
      let lead := fold_left setattr updates lead in
      let lead := set_updated_at (TStr now) lead in
      let m := set_leads (dict_set lead_id lead (leads m)) m in
      if existsb (fun field => existsb (String.eqb field) (map key_of updates))
                 qualification_fields
      then (true, snd (qualify_lead m lead_id))
      else (true, m)
  end.

Definition delete_lead (m : LeadManager) (lead_id : string) : bool * LeadManager :=
  if dict_mem lead_id (leads m)
  then (true, set_interaction_history (dict_del lead_id (interaction_history m))
                (set_leads (dict_del lead_id (leads m)) m))
  else (false, m).

Definition get_qualified_leads (m : LeadManager) : list Lead :=
  filter is_qualified (dict_values (leads m)).

Definition get_hot_leads (m : LeadManager) : list Lead :=
  filter is_hot_lead (dict_values (leads m)).

Definition get_leads_by_status (m : LeadManager) (s : LeadStatus) : list Lead :=
  filter (fun lead => status_is (status lead) s) (dict_values (leads m)).

(** The loop [for lead_id in self.leads.keys(): self.qualify_lead(lead_id)]. *)
Definition requalify_all (m : LeadManager) : LeadManager :=
  fold_left (fun m lead_id => snd (qualify_lead m lead_id)) (dict_keys (leads m)) m.

Definition update_scoring_criteria (m : LeadManager) (new_criteria : ScoringCriteria)
  : bool * LeadManager :=
  if negb (validate_weights new_criteria) then (false, m)
  else (true, requalify_all (set_scoring_criteria new_criteria m)).

(** [uuid] and [now_iso] fill the record; [now] is [str(datetime.now())].
    The log is reached by subscription, [self.interaction_history[lead_id]],
    which raises KeyError for a lead that has none. *)
Definition add_interaction (uuid now_iso now : string) (m : LeadManager)
  (lead_id interaction_type details : string) : result bool * LeadManager :=
  match dict_get lead_id (leads m) with
  | None => (Ok false, m)
  | Some lead =>
      let interaction := mkInteraction uuid now_iso interaction_type details in
      match dict_get lead_id (interaction_history m) with
      | None => (Raise (KeyError lead_id), m)
      | Some log =>
          let m := set_interaction_history
                     (dict_set lead_id (log ++ [interaction])%list
                               (interaction_history m)) m in
          if existsb (String.eqb interaction_type) ["email"; "call"; "meeting"]
          then (Ok true,
                set_leads (dict_set lead_id (set_last_contacted (TStr now) lead)
                                    (leads m)) m)
          else (Ok true, m)
      end
  end.

Definition get_interaction_history (m : LeadManager) (lead_id : string)
  : list Interaction :=
  get_or [] (dict_get lead_id (interaction_history m)).

(** ** Export *)

(** The tree handed to [json.dumps]. *)
#[local] Unset Elimination Schemes.
Inductive json : Type :=
| JNull
| JBool (b : bool)
| JInt (n : Z)
| JFloat (x : F)
| JStr (s : string)
| JList (l : list json)
| JObj (o : list (string * json)).
#[local] Set Elimination Schemes.

Definition json_opt {A : Type} (f : A -> json) (x : option A) : json :=
  match x with
  | Some a => f a
  | None => JNull
  end.

(** [t.isoformat() if t else None] *)
Definition isoformat_if_set (t : timeval) : result json :=
  if timeval_truthy t then (iso <- isoformat t ;; Ok (JStr iso)) else Ok JNull.

(** The dictionary built for one lead; its entries are evaluated in the order
    written, so the first failing attribute access decides the exception. *)
Definition export_lead (lead : Lead) : result json :=
  source_value <- value_of LeadSource_value (lead_source lead) ;;
  status_value <- value_of LeadStatus_value (status lead) ;;
  created <- isoformat (created_at lead) ;;
  updated <- isoformat (updated_at lead) ;;
  contacted <- isoformat_if_set (last_contacted lead) ;;
  follow_up <- isoformat_if_set (next_follow_up lead) ;;
  Ok (JObj [("first_name", JStr (first_name lead));
            ("last_name", JStr (last_name lead));
            ("email", JStr (email lead));
            ("company", JStr (company lead));
            ("phone", json_opt JStr (phone lead));
            ("title", json_opt JStr (title lead));
            ("lead_source", JStr source_value);
            ("status", JStr status_value);
            ("created_at", JStr created);
            ("updated_at", JStr updated);
            ("company_size", json_opt JInt (company_size lead));
            ("annual_revenue", json_opt JInt (annual_revenue lead));
            ("budget", json_opt JInt (budget lead));
            ("decision_maker", JBool (decision_maker lead));
            ("pain_points", JList (map JStr (pain_points lead)));
            ("timeline", json_opt JStr (timeline lead));
            ("qualification_score", JFloat (qualification_score lead));
            ("notes", JStr (notes lead));
            ("tags", JList (map JStr (tags lead)));
            ("last_contacted", contacted);
            ("next_follow_up", follow_up)]).

(** The loop over [self.leads.items()], filling [export_data['leads']]. *)
Fixpoint export_leads (items : dict Lead) (acc : dict json) : result (dict json) :=
  match items with
  | [] => Ok acc
  | (lead_id, lead) :: rest =>
      entry <- export_lead lead ;;
      export_leads rest (dict_set lead_id entry acc)
  end.

Definition export_criteria (c : ScoringCriteria) : json :=
  JObj [("company_size_weight", JFloat (company_size_weight c));
        ("budget_weight", JFloat (budget_weight c));
        ("authority_weight", JFloat (authority_weight c));
        ("need_weight", JFloat (need_weight c));
        ("timeline_weight", JFloat (timeline_weight c));
        ("qualified_threshold", JFloat (qualified_threshold c));
        ("hot_lead_threshold", JFloat (hot_lead_threshold c))].

(** [now_iso] is [datetime.now().isoformat()].  The result is the document
    before its rendering as text. *)
Definition export_leads_json (now_iso : string) (m : LeadManager) : result json :=
  exported <- export_leads (leads m) [] ;;
  Ok (JObj [("leads", JObj exported);
            ("scoring_criteria", export_criteria (scoring_criteria m));
            ("export_timestamp", JStr now_iso)]).

(** ** Bulk ingestion *)

(** The body of the [try] block up to the construction of the [Lead]:
    the two enumeration look-ups come first and their results are dropped,
    the constructor receives the strings of the dictionary. *)
Definition lead_from_data (uuid : string) (data : RawLead) : result Lead :=
  let source_text := get_or "other" (raw_lead_source data) in
  let status_text := get_or "new" (raw_status data) in
  match LeadSource_of_value source_text with
  | None => Raise (ValueError ("'" ++ source_text ++ "' is not a valid LeadSource"))
  | Some _ =>
      match LeadStatus_of_value status_text with
      | None => Raise (ValueError ("'" ++ status_text ++ "' is not a valid LeadStatus"))
      | Some _ =>
          fn <- item "first_name" (raw_first_name data) ;;
          ln <- item "last_name" (raw_last_name data) ;;
          em <- item "email" (raw_email data) ;;
          co <- item "company" (raw_company data) ;;
          Ok {| first_name := fn;
                last_name := ln;
                email := em;
                company := co;
                phone := raw_phone data;
                title := raw_title data;
                lead_source := RawStr source_text;
                status := RawStr status_text;
                created_at := TNone;
                updated_at := TNone;
                company_size := raw_company_size data;
                annual_revenue := raw_annual_revenue data;
                budget := raw_budget data;
                decision_maker := get_or false (raw_decision_maker data);
                pain_points := get_or [] (raw_pain_points data);
                timeline := raw_timeline data;
                qualification_score := of_int 0;
                notes := get_or "" (raw_notes data);
                tags := get_or [] (raw_tags data);
                id := uuid;
                last_contacted := TNone;
                next_follow_up := TNone |}
      end
  end.

(** The loop of [create_lead_objects_from_data] from record number [i] on:
    [uuids i] and [nows i] are what [uuid4] and [datetime.now] give while
    record [i] is handled.  A record that raises is reported and skipped. *)
Fixpoint create_leads_from (uuids nows : nat -> string) (i : nat)
  (m : LeadManager) (synthetic_data : list RawLead) : list string * LeadManager :=
  match synthetic_data with
  | [] => ([], m)
  | data :: rest =>
      match lead_from_data (uuids i) data with
      | Raise _ => create_leads_from uuids nows (S i) m rest
      | Ok lead =>
          match add_lead (uuids i) (nows i) m lead with
          | (Ok lead_id, m') =>
              let '(lead_ids, m'') := create_leads_from uuids nows (S i) m' rest in
              (lead_id :: lead_ids, m'')
          | (Raise _, m') => create_leads_from uuids nows (S i) m' rest
          end
      end
  end.

Definition create_lead_objects_from_data (uuids nows : nat -> string)
  (m : LeadManager) (synthetic_data : list RawLead) : list string * LeadManager :=
  create_leads_from uuids nows 0 m synthetic_data.

End Engine.

Arguments ScoringCriteria F : clear implicits.
Arguments Lead F : clear implicits.
Arguments LeadManager F : clear implicits.
Arguments update F : clear implicits.
Arguments json F : clear implicits.

(* ================================================================== *)
(** * Pipeline summary and the local commands of the chat interface *)
(* ================================================================== *)

(** [sorted(set(xs))] for strings: the distinct elements in ascending order. *)
Fixpoint insert_sorted (x : string) (l : list string) : list string :=
  match l with
  | [] => [x]
  | y :: l' => if String.leb x y then x :: l else y :: insert_sorted x l'
  end.

Definition sorted_set (xs : list string) : list string :=
  fold_right insert_sorted [] (nodup string_dec xs).

Section Reports.

Context {F : Type} {PF : PyFloat F}.

(** [sum(xs)] over a list of floats, and the true division [x / y].  The
    algorithm behind [sum] differs between interpreter versions, so the two
    are taken as given.  The quotient of two integers, as in
    [qualified_count / total_leads], is the division of their floats. *)
Variable py_sum : list F -> F.
Variable fdiv : F -> F -> F.

(** The dictionary [get_pipeline_summary] returns: [{'total_leads': 0}] for an
    empty repository, all six entries otherwise. *)
Inductive PipelineSummary : Type :=
| EmptyPipeline
| Pipeline (total_leads qualified_leads hot_leads : Z)
           (qualification_rate average_score : F)
           (status_breakdown : dict Z).

Definition get_pipeline_summary (m : LeadManager F) : PipelineSummary :=
  let total_leads := Z.of_nat (List.length (leads m)) in
  if (total_leads =? 0)%Z then EmptyPipeline
  else
    let status_counts :=
      fold_left (fun counts status =>
                   dict_set (LeadStatus_value status)
                            (Z.of_nat (List.length (get_leads_by_status m status)))
                            counts)
                LeadStatus_members [] in
    let qualified_count := Z.of_nat (List.length (get_qualified_leads m)) in
    let hot_leads_count := Z.of_nat (List.length (get_hot_leads m)) in
    let avg_score :=
      fdiv (py_sum (map qualification_score (dict_values (leads m))))
           (of_int total_leads) in
    Pipeline total_leads qualified_count hot_leads_count
             (fmul (fdiv (of_int qualified_count) (of_int total_leads)) (of_int 100))
             (round2 avg_score)
             status_counts.

(** What [process_local_query] answers, before the text is rendered: the
    command it recognised and the figures it puts into the reply. *)
Inductive LocalResponse : Type :=
| TotalLeads (total : nat)
| QualifiedLeads (qualified total : nat)
| HotLeads (hot total : nat)
| AverageScore (avg_score : F)
| Companies (count : nat) (shown : list string) (more : bool)
| Help.

(** [leads_data] is the list of [Lead] objects the interface was created
    with.  [None] hands the query to the language model. *)
Definition process_local_query (leads_data : list (Lead F)) (query : string)
  : option LocalResponse :=
  let query_lower := lower query in
  if contains "count" query_lower && contains "leads" query_lower then
    Some (TotalLeads (List.length leads_data))
  else if contains "qualified" query_lower then
    let qualified :=
      filter (fun lead => fge (qualification_score lead) (of_int 70)) leads_data in
    Some (QualifiedLeads (List.length qualified) (List.length leads_data))
  else if contains "hot" query_lower then
    let hot :=
      filter (fun lead => fge (qualification_score lead) (of_int 85)) leads_data in
    Some (HotLeads (List.length hot) (List.length leads_data))
  else if contains "average score" query_lower || contains "avg score" query_lower then
    let scores := map qualification_score leads_data in
    let avg_score :=
      match scores with
      | [] => of_int 0
      | _ => fdiv (py_sum scores) (of_int (Z.of_nat (List.length scores)))
      end in
    Some (AverageScore avg_score)
  else if contains "companies" query_lower && contains "list" query_lower then
    let companies := sorted_set (map company leads_data) in
    Some (Companies (List.length companies) (firstn 10 companies)
                    (Nat.ltb 10 (List.length companies)))
  else if existsb (String.eqb query_lower) ["help"; "commands"; "?"] then
    Some Help
  else None.

End Reports.

Arguments PipelineSummary F : clear implicits.
Arguments LocalResponse F : clear implicits.

(* ================================================================== *)
(** * Sample leads, criteria and repositories *)
(* ================================================================== *)

Section Samples.

Context {F : Type} {PF : PyFloat F}.

(** The status a freshly computed score [s] gives a lead under criteria [c]:
    the branch that closes [qualify_lead], as a function of the score. *)
Definition status_after (c : ScoringCriteria F) (lead : Lead F) (s : F)
  : enum_or_str LeadStatus :=
  if status_is (status lead) NEW then
    if fge s (qualified_threshold c) then Member QUALIFIED else Member UNQUALIFIED
  else status lead.

(** [Lead(first_name, last_name, email, company, id=lead_id)]: every other
    field at its default. *)
Definition bare_lead (lead_id fn ln em co : string) : Lead F :=
  mkLead fn ln em co None None (Member OTHER) (Member NEW) TNone TNone
    None None None false [] None (of_int 0) "" [] lead_id TNone TNone.

Definition ada : Lead F :=
  bare_lead "lead-1" "Ada" "Lovelace" "ada@example.com" "Analytical Engines".

(** The lead of the first worked example, not yet scored. *)
Definition example1_lead : Lead F :=
  set_timeline (Some "immediate")
    (set_pain_points ["manual processes"; "cost optimization"]
       (set_company_size (Some 1200)
          (set_budget (Some 120000)
             (set_decision_maker true ada)))).

(** A repository under the default criteria that stores that lead. *)
Definition example1_manager : LeadManager F :=
  mkLeadManager [("lead-1", example1_lead)] default_criteria [("lead-1", [])].

(** The test [any(field in updates for field in qualification_fields)] of
    [update_lead]. *)
Definition requalifies (updates : list (update F)) : bool :=
  existsb (fun field => existsb (String.eqb field) (map key_of updates))
          qualification_fields.

(** [lead] carries, in its status and lead_source fields, the strings of one
    of the raw dictionaries [data] (or the defaults "new" and "other" when
    the dictionary has no such key). *)
Definition holds_raw_strings (data : list RawLead) (lead : Lead F) : Prop :=
  exists d, In d data /\
            status lead = RawStr (get_or "new" (raw_status d)) /\
            lead_source lead = RawStr (get_or "other" (raw_lead_source d)).

Definition grace : Lead F :=
  bare_lead "lead-2" "Grace" "Hopper" "grace@example.com" "Compilers".

(** A repository of two scored leads under the default criteria. *)
Definition two_leads_manager : LeadManager F :=
  mkLeadManager [("lead-1", qualify default_criteria example1_lead);
                 ("lead-2", qualify default_criteria grace)]
                default_criteria
                [("lead-1", []); ("lead-2", [])].


(** Valid criteria that favour authority. *)
Definition authority_first : ScoringCriteria F :=
  mkScoringCriteria (of_dec 10 2) (of_dec 20 2) (of_dec 40 2) (of_dec 20 2)
                    (of_dec 10 2) (of_int 70) (of_int 85).



(** A repository that stores Ada alone. *)
Definition ada_manager : LeadManager F :=
  mkLeadManager [("lead-1", qualify default_criteria ada)] default_criteria
                [("lead-1", [])].

(** Two raw dictionaries as the generator writes them; the second has no
    email. *)
Definition raw_ada : RawLead :=
  mkRawLead (Some "Ada") (Some "Lovelace") (Some "ada@example.com")
            (Some "Analytical Engines") None (Some "CTO")
            (Some "website") (Some "new")
            (Some 1200) None (Some 120000) (Some true)
            (Some ["manual processes"; "cost optimization"]) (Some "immediate")
            None None.

Definition raw_no_email : RawLead :=
  mkRawLead (Some "Grace") (Some "Hopper") None (Some "Compilers") None None
            None None None None None None None None None None.

Definition sample_uuids (i : nat) : string :=
  match i with
  | O => "uuid-0"
  | S O => "uuid-1"
  | _ => "uuid-n"
  end.

Definition sample_nows (i : nat) : string := "2026-01-05 10:00:00".

(** The default weights with the thresholds lowered to 40 and 50. *)
Definition low_thresholds : ScoringCriteria F :=
  mkScoringCriteria (of_dec 25 2) (of_dec 30 2) (of_dec 20 2) (of_dec 15 2)
                    (of_dec 10 2) (of_int 40) (of_int 50).

(** A lead of a large company about which nothing else is known. *)
Definition large_company_lead : Lead F := set_company_size (Some 1200) grace.

(** [LeadManager(low_thresholds)] after [add_lead(large_company_lead)]. *)
Definition low_threshold_manager : LeadManager F :=
  match new_manager (Some low_thresholds) with
  | Ok m => snd (add_lead "uuid-0" "2026-01-05 10:00:00" m large_company_lead)
  | Raise _ => mkLeadManager [] low_thresholds []
  end.

(** The first example's lead built with a [datetime] as created_at. *)
Definition example1_lead_dated : Lead F :=
  set_created_at (TDatetime "2026-01-05T09:00:00") example1_lead.







(** The empty repository [LeadManager()]. *)
Definition empty_manager : LeadManager F := mkLeadManager [] default_criteria [].

End Samples.

(* ================================================================== *)
(** * Notions used in the statements about the repository *)
(* ================================================================== *)

Section Notions.

Context {F : Type} {PF : PyFloat F}.


(** No two stored leads have the same email up to letter case. *)
Definition emails_unique (m : LeadManager F) : Prop :=
  NoDup (map (fun lead => lower (email lead)) (dict_values (leads m))).




(** A lead [export_lead] can serialise: enumeration members in lead_source
    and status, [datetime] objects in created_at and updated_at, and in
    last_contacted and next_follow_up a [datetime] or a false value. *)
Definition exportable (lead : Lead F) : bool :=
  match lead_source lead, status lead, created_at lead, updated_at lead with
  | Member _, Member _, TDatetime _, TDatetime _ =>
      let ok t := match t with
                  | TDatetime _ => true
                  | other => negb (timeval_truthy other)
                  end in
      ok (last_contacted lead) && ok (next_follow_up lead)
  | _, _, _, _ => false
  end.

(** A keyword without a space. *)
Fixpoint no_space (k : string) : bool :=
  match k with
  | EmptyString => true
  | String c k' => negb (Ascii.eqb c " "%char) && no_space k'
  end.

(** The number of stored leads whose status is a member of [LeadStatus]. *)
Definition member_statuses (m : LeadManager F) : nat :=
  List.length (filter (fun lead => match status lead with
                                   | Member _ => true
                                   | RawStr _ => false
                                   end)
                      (dict_values (leads m))).

(** The keys of the dictionary exported for one lead, in order. *)
Definition exported_fields : list string :=
  ["first_name"; "last_name"; "email"; "company"; "phone"; "title";
   "lead_source"; "status"; "created_at"; "updated_at"; "company_size";
   "annual_revenue"; "budget"; "decision_maker"; "pain_points"; "timeline";
   "qualification_score"; "notes"; "tags"; "last_contacted"; "next_follow_up"].

(** A repository holding the first example's lead with [datetime] objects in
    both timestamps, as a caller who assigns the fields directly can build
    it. *)
Definition dated_manager : LeadManager F :=
  mkLeadManager
    [("lead-1", set_updated_at (TDatetime "2026-01-05T10:00:00")
                  (qualify default_criteria example1_lead_dated))]
    default_criteria [("lead-1", [])].

End Notions.

(* ================================================================== *)
(** * Checks of the string and number primitives *)
(* ================================================================== *)

Example lower_example : lower "Ada.Lovelace@Example.COM" = "ada.lovelace@example.com".
Proof. reflexivity. Qed.

Example contains_example :
  contains "cost" "manual processes cost optimization" = true /\
  contains "time" "manual processes cost optimization" = false /\
  contains "" "abc" = true.
Proof. repeat split. Qed.

Example binary64_literals :
  of_dec (F := spec_float) 25 2 = S754_finite false 4503599627370496 (-54) /\
  of_dec (F := spec_float) 15 2 = S754_finite false 5404319552844595 (-55) /\
  of_int (F := spec_float) 100 = S754_finite false 7036874417766400 (-46).
Proof. repeat split. Qed.

(** [round(x, 2)] on doubles follows the binary value: 2.675 is stored just
    below the tie and goes down, 0.125 is an exact tie and goes to the even
    neighbour. *)
Example binary64_round2 :
  round2 (F := spec_float) (of_dec 2675 3) = of_dec 267 2 /\
  round2 (F := spec_float) (of_dec 125 3) = of_dec 12 2 /\
  round2 (F := spec_float) (of_dec 955 1) = of_dec 955 1.
Proof. repeat split. Qed.

(* ================================================================== *)
(** * Worked example *)
(* ================================================================== *)

(** C1.  The lead with decision_maker set, budget 120000, company_size 1200,
    pain points "manual processes" and "cost optimization", timeline
    "immediate" and status NEW, scored by [qualify_lead] under the default
    criteria, receives the score 95.5 exactly, moves to QUALIFIED, and is a
    hot lead: its score reaches the hot-lead threshold 85 and
    [get_hot_leads] lists it.  This holds in double precision and in exact
    arithmetic. *)
Theorem C1_example1_scores_95_5 :
  (let r := qualify_lead (F := spec_float) example1_manager "lead-1" in
   fst r = of_dec 955 1 /\
   get_lead (snd r) "lead-1"
     = Some (set_status (Member QUALIFIED)
               (set_qualification_score (of_dec 955 1) example1_lead)) /\
   fge (fst r) (hot_lead_threshold (scoring_criteria (snd r))) = true /\
   get_hot_leads (snd r) = dict_values (leads (snd r)) /\
   get_leads_by_status (snd r) QUALIFIED = dict_values (leads (snd r)))
  /\
  (let r := qualify_lead (F := Q) example1_manager "lead-1" in
   (fst r == 955 # 10)%Q /\
   get_lead (snd r) "lead-1"
     = Some (set_status (Member QUALIFIED)
               (set_qualification_score (fst r) example1_lead)) /\
   fge (fst r) (hot_lead_threshold (scoring_criteria (snd r))) = true /\
   get_hot_leads (snd r) = dict_values (leads (snd r)) /\
   get_leads_by_status (snd r) QUALIFIED = dict_values (leads (snd r))).
Proof.
  split; vm_compute; repeat split; reflexivity.
Qed.

(* ================================================================== *)
(** * Dictionaries *)
(* ================================================================== *)

Section DictFacts.

Context {V : Type}.
Implicit Types (d : dict V) (k : string) (v : V).

Lemma dict_get_set_same d k v : dict_get k (dict_set k v d) = Some v.
Proof.
  induction d as [|[k' v'] d IH]; simpl.
  - now rewrite String.eqb_refl.
  - destruct (k' =? k) eqn:E; simpl.
    + now rewrite String.eqb_refl.
    + now rewrite E.
Qed.

Lemma dict_get_set_other d k k' v :
  k <> k' -> dict_get k' (dict_set k v d) = dict_get k' d.
Proof.
  intros Hne. induction d as [|[k0 v0] d IH]; simpl.
  - destruct (k =? k') eqn:E; [apply String.eqb_eq in E; contradiction | reflexivity].
  - destruct (k0 =? k) eqn:E; simpl.
    + apply String.eqb_eq in E. subst k0.
      destruct (k =? k') eqn:E'; [apply String.eqb_eq in E'; contradiction | reflexivity].
    + destruct (k0 =? k'); [reflexivity | exact IH].
Qed.


Lemma dict_get_In d k v : dict_get k d = Some v -> In (k, v) d.
Proof.
  induction d as [|[k' v'] d IH]; simpl; [discriminate|].
  destruct (k' =? k) eqn:E; intros H.
  - apply String.eqb_eq in E. injection H as ->. subst. now left.
  - right. now apply IH.
Qed.

Lemma dict_get_skip (pre : dict V) d k :
  ~ In k (dict_keys pre) -> dict_get k (pre ++ d)%list = dict_get k d.
Proof.
  induction pre as [|[k' v'] pre IH]; simpl; [reflexivity|].
  intros Hn. destruct (k' =? k) eqn:E.
  - apply String.eqb_eq in E. subst. exfalso. apply Hn. now left.
  - apply IH. intros Hin. apply Hn. now right.
Qed.

Lemma dict_set_skip (pre suf : dict V) k v v0 :
  ~ In k (dict_keys pre) ->
  dict_set k v (pre ++ (k, v0) :: suf)%list = (pre ++ (k, v) :: suf)%list.
Proof.
  induction pre as [|[k' v'] pre IH]; simpl.
  - now rewrite String.eqb_refl.
  - intros Hn. destruct (k' =? k) eqn:E.
    + apply String.eqb_eq in E. subst. exfalso. apply Hn. now left.
    + f_equal. apply IH. intros Hin. apply Hn. now right.
Qed.

End DictFacts.

(* ================================================================== *)
(** * Qualification: what it writes and what it leaves alone *)
(* ================================================================== *)

Section QualifyFacts.

Context {F : Type} {PF : PyFloat F}.
Implicit Types (m : LeadManager F) (c : ScoringCriteria F) (lead : Lead F).

Lemma qualify_eq c lead :
  qualify c lead
  = set_status (status_after c lead (round2 (weighted_score c lead)))
      (set_qualification_score (round2 (weighted_score c lead)) lead).
Proof.
  unfold qualify, status_after. simpl.
  destruct (status_is (status lead) NEW); [|reflexivity].
  destruct (fge _ _); reflexivity.
Qed.

Lemma qualify_score c lead :
  qualification_score (qualify c lead) = round2 (weighted_score c lead).
Proof. now rewrite qualify_eq. Qed.

Lemma qualify_status c lead :
  status (qualify c lead) = status_after c lead (round2 (weighted_score c lead)).
Proof. now rewrite qualify_eq. Qed.

(** The score depends on the five rubric inputs only. *)
Lemma weighted_score_ext c lead lead' :
  company_size lead' = company_size lead ->
  budget lead' = budget lead ->
  annual_revenue lead' = annual_revenue lead ->
  decision_maker lead' = decision_maker lead ->
  title lead' = title lead ->
  pain_points lead' = pain_points lead ->
  timeline lead' = timeline lead ->
  weighted_score c lead' = weighted_score c lead.
Proof.
  unfold weighted_score. intros -> -> -> -> -> -> ->. reflexivity.
Qed.

Lemma qualify_lead_found m lead_id lead :
  get_lead m lead_id = Some lead ->
  qualify_lead m lead_id
  = (qualification_score (qualify (scoring_criteria m) lead),
     set_leads (dict_set lead_id (qualify (scoring_criteria m) lead) (leads m)) m).
Proof. unfold get_lead, qualify_lead. now intros ->. Qed.


End QualifyFacts.


(* ================================================================== *)
(** * Replacing the scoring criteria *)
(* ================================================================== *)

Section CriteriaFacts.

Context {F : Type} {PF : PyFloat F}.
Implicit Types (m : LeadManager F) (c : ScoringCriteria F) (lead : Lead F).

(** The re-qualification loop, part way through: the leads [done] have been
    handled, the keys of [todo] are still to come. *)
Lemma requalify_loop c h (todo done : dict (Lead F)) :
  NoDup (dict_keys todo) ->
  (forall k, In k (dict_keys todo) -> ~ In k (dict_keys done)) ->
  fold_left (fun m lead_id => snd (qualify_lead m lead_id)) (dict_keys todo)
            (mkLeadManager (done ++ todo)%list c h)
  = mkLeadManager (done ++ map (fun kv => (fst kv, qualify c (snd kv))) todo)%list c h.
Proof.
  revert done. induction todo as [|[k lead] todo IH]; intros done Hnd Hfresh.
  - reflexivity.
  - simpl. inversion Hnd as [|? ? Hk Hnd']; subst.
    assert (Hout : ~ In k (dict_keys done)) by (apply Hfresh; now left).
    assert (Hget : get_lead (mkLeadManager (done ++ (k, lead) :: todo)%list c h) k
                   = Some lead).
    { unfold get_lead. simpl. rewrite dict_get_skip by exact Hout.
      simpl. now rewrite String.eqb_refl. }
    rewrite (qualify_lead_found _ _ _ Hget). simpl.
    rewrite dict_set_skip by exact Hout. unfold set_leads. simpl.
    replace (done ++ (k, qualify c lead) :: todo)%list
      with ((done ++ [(k, qualify c lead)]) ++ todo)%list
      by (rewrite <- app_assoc; reflexivity).
    rewrite IH.
    + rewrite <- app_assoc. reflexivity.
    + exact Hnd'.
    + intros k' Hin Hin'. unfold dict_keys in Hin'. rewrite map_app in Hin'.
      apply in_app_or in Hin'. destruct Hin' as [Hin'|Hin'].
      * apply (Hfresh k'); [now right | exact Hin'].
      * simpl in Hin'. destruct Hin' as [<-|[]]. contradiction.
Qed.

Lemma requalify_all_map m :
  NoDup (dict_keys (leads m)) ->
  requalify_all m
  = set_leads (map (fun kv => (fst kv, qualify (scoring_criteria m) (snd kv)))
                   (leads m)) m.
Proof.
  intros Hnd. destruct m as [d c h]. unfold requalify_all, set_leads. simpl.
  apply (requalify_loop c h d [] Hnd). intros k _ [].
Qed.


End CriteriaFacts.


(* ================================================================== *)
(** * Updating a lead *)
(* ================================================================== *)

Section UpdateFacts.

Context {F : Type} {PF : PyFloat F}.
Implicit Types (m : LeadManager F) (c : ScoringCriteria F) (lead : Lead F).
Implicit Types (updates : list (update F)).

Lemma dict_set_twice {V : Type} (d : dict V) k v v' :
  dict_set k v (dict_set k v' d) = dict_set k v d.
Proof.
  induction d as [|[k0 v0] d IH]; simpl.
  - now rewrite String.eqb_refl.
  - destruct (k0 =? k) eqn:E; simpl.
    + now rewrite String.eqb_refl.
    + rewrite E. now f_equal.
Qed.

Lemma update_lead_found now m lead_id lead updates :
  get_lead m lead_id = Some lead ->
  let updated := set_updated_at (TStr now) (fold_left setattr updates lead) in
  update_lead now m lead_id updates
  = (true,
     set_leads (dict_set lead_id
                  (if requalifies updates
                   then qualify (scoring_criteria m) updated else updated)
                  (leads m)) m).
Proof.
  intros Hget updated. unfold get_lead in Hget. unfold update_lead.
  rewrite Hget. fold (requalifies updates). fold updated.
  destruct (requalifies updates); [|reflexivity].
  rewrite (qualify_lead_found _ lead_id updated).
  - simpl. now rewrite dict_set_twice.
  - unfold get_lead. simpl. apply dict_get_set_same.
Qed.






End UpdateFacts.


(* ================================================================== *)
(** * Adding a lead *)
(* ================================================================== *)

Section AddFacts.

Context {F : Type} {PF : PyFloat F}.
Implicit Types (m : LeadManager F) (c : ScoringCriteria F) (lead : Lead F).



(** What a successful [add_lead] stores, and that it touches no other key. *)
Lemma add_lead_ok uuid now m lead lead_id m' :
  add_lead uuid now m lead = (Ok lead_id, m') ->
  let lead0 := if negb (truthy (id lead)) then set_id uuid lead else lead in
  let stored := qualify (scoring_criteria m) (set_updated_at (TStr now) lead0) in
  lead_id = id lead0 /\
  get_lead m' lead_id = Some stored /\
  (forall k, k <> lead_id -> get_lead m' k = get_lead m k) /\
  scoring_criteria m' = scoring_criteria m.
Proof.
  intros H lead0 stored. unfold add_lead in H. fold lead0 in H.
  destruct (negb _) in H; [discriminate|].
  destruct (find_lead_by_email m (email lead0)); [discriminate|].
  set (l1 := set_updated_at (TStr now) lead0) in *.
  set (m1 := set_interaction_history _ _) in H.
  assert (Hget : get_lead m1 (id l1) = Some l1).
  { unfold get_lead. simpl. apply dict_get_set_same. }
  rewrite (qualify_lead_found _ _ _ Hget) in H.
  injection H as <- <-. simpl. split; [reflexivity|].
  split; [|split; [|reflexivity]].
  - unfold get_lead. simpl. apply dict_get_set_same.
  - intros k Hk. unfold get_lead. simpl.
    rewrite !dict_get_set_other by congruence. reflexivity.
Qed.

(** A failed [add_lead] leaves the manager as it was. *)
Lemma add_lead_raise uuid now m lead e m' :
  add_lead uuid now m lead = (Raise e, m') -> m' = m.
Proof.
  unfold add_lead.
  destruct (negb _); [now intros [= _ <-]|].
  destruct (find_lead_by_email _ _); [now intros [= _ <-]|].
  destruct (qualify_lead _ _). discriminate.
Qed.


End AddFacts.



(* ================================================================== *)
(** * Bulk ingestion *)
(* ================================================================== *)

Section IngestFacts.

Context {F : Type} {PF : PyFloat F}.
Implicit Types (m : LeadManager F) (c : ScoringCriteria F) (lead : Lead F).

Lemma lead_from_data_raw uuid d lead :
  lead_from_data uuid d = Ok lead ->
  status lead = RawStr (get_or "new" (raw_status d)) /\
  lead_source lead = RawStr (get_or "other" (raw_lead_source d)).
Proof.
  unfold lead_from_data.
  destruct (LeadSource_of_value _); [|discriminate].
  destruct (LeadStatus_of_value _); [|discriminate].
  destruct (raw_first_name d); [|discriminate].
  destruct (raw_last_name d); [|discriminate].
  destruct (raw_email d); [|discriminate].
  destruct (raw_company d); [|discriminate].
  simpl. intros [= <-]. split; reflexivity.
Qed.

(** Scoring passes over a status that is a plain string. *)
Lemma qualify_raw_status c lead s :
  status lead = RawStr s ->
  status (qualify c lead) = status lead /\
  lead_source (qualify c lead) = lead_source lead.
Proof.
  intros Hs. rewrite qualify_eq. unfold status_after. rewrite Hs. split; reflexivity.
Qed.

Lemma add_lead_stores_raw uuid now m lead lead_id m' data d :
  In d data ->
  lead_from_data uuid d = Ok lead ->
  add_lead uuid now m lead = (Ok lead_id, m') ->
  exists stored, get_lead m' lead_id = Some stored /\ holds_raw_strings data stored.
Proof.
  intros Hd Hfrom Hadd.
  destruct (lead_from_data_raw _ _ _ Hfrom) as [Hst Hsrc].
  destruct (add_lead_ok _ _ _ _ _ _ Hadd) as (_ & Hget & _).
  eexists. split; [exact Hget|].
  set (lead0 := if negb (truthy (id lead)) then set_id uuid lead else lead).
  assert (H0 : status lead0 = status lead /\ lead_source lead0 = lead_source lead).
  { subst lead0. destruct (negb _); split; reflexivity. }
  destruct H0 as [H0 H1].
  destruct (qualify_raw_status (scoring_criteria m)
              (set_updated_at (TStr now) lead0)
              (get_or "new" (raw_status d))) as [Q0 Q1].
  { simpl. congruence. }
  exists d. split; [exact Hd|]. split.
  - rewrite Q0. simpl. congruence.
  - rewrite Q1. simpl. congruence.
Qed.

(** A key that holds an ingested lead still does after more records. *)
Lemma create_leads_from_keeps uuids nows all data :
  incl data all ->
  forall i m k,
    (exists lead, get_lead m k = Some lead /\ holds_raw_strings all lead) ->
    exists lead,
      get_lead (snd (create_leads_from uuids nows i m data)) k = Some lead /\
      holds_raw_strings all lead.
Proof.
  induction data as [|d rest IH]; intros Hincl i m k Hk; simpl; [exact Hk|].
  assert (Hrest : incl rest all) by (intros x Hx; apply Hincl; now right).
  destruct (lead_from_data (uuids i) d) as [lead|e] eqn:Hfrom; [|now apply IH].
  destruct (add_lead (uuids i) (nows i) m lead) as [[lead_id|e] m'] eqn:Hadd.
  - destruct (create_leads_from uuids nows (S i) m' rest) as [ids m''] eqn:Hrec.
    simpl. change m'' with (snd (ids, m'')). rewrite <- Hrec.
    apply IH; [exact Hrest|].
    destruct (String.eqb_spec k lead_id) as [->|Hne].
    + eapply add_lead_stores_raw; [|exact Hfrom|exact Hadd]. apply Hincl. now left.
    + destruct (add_lead_ok _ _ _ _ _ _ Hadd) as (_ & _ & Hother & _).
      rewrite Hother by exact Hne. exact Hk.
  - apply add_lead_raise in Hadd. subst m'. now apply IH.
Qed.

Lemma create_leads_from_ids uuids nows all data :
  incl data all ->
  forall i m k,
    In k (fst (create_leads_from uuids nows i m data)) ->
    exists lead,
      get_lead (snd (create_leads_from uuids nows i m data)) k = Some lead /\
      holds_raw_strings all lead.
Proof.
  induction data as [|d rest IH]; intros Hincl i m k; simpl; [intros []|].
  assert (Hrest : incl rest all) by (intros x Hx; apply Hincl; now right).
  destruct (lead_from_data (uuids i) d) as [lead|e] eqn:Hfrom; [|now apply IH].
  destruct (add_lead (uuids i) (nows i) m lead) as [[lead_id|e] m'] eqn:Hadd.
  - destruct (create_leads_from uuids nows (S i) m' rest) as [ids m''] eqn:Hrec.
    simpl. intros [<-|Hin].
    + change m'' with (snd (ids, m'')). rewrite <- Hrec.
      apply create_leads_from_keeps; [exact Hrest|].
      eapply add_lead_stores_raw; [|exact Hfrom|exact Hadd]. apply Hincl. now left.
    + specialize (IH Hrest (S i) m' k). rewrite Hrec in IH. now apply IH.
  - now apply IH.
Qed.

(** C10.  Every lead that [create_lead_objects_from_data] reports as
    inserted is stored with plain strings in status and lead_source: the
    strings of a raw dictionary of the batch (or the defaults "new" and
    "other"), not members of the enumerations.  For such a lead the test
    [status == LeadStatus.NEW] of [qualify_lead] is false, so scoring under
    any criteria leaves its status as it is, and [get_leads_by_status]
    returns it for no member of [LeadStatus]. *)
Theorem C10_ingested_leads_hold_raw_strings uuids nows m synthetic_data :
  let r := create_lead_objects_from_data uuids nows m synthetic_data in
  forall lead_id,
    In lead_id (fst r) ->
    exists lead d,
      get_lead (snd r) lead_id = Some lead /\
      In d synthetic_data /\
      status lead = RawStr (get_or "new" (raw_status d)) /\
      lead_source lead = RawStr (get_or "other" (raw_lead_source d)) /\
      status_is (status lead) NEW = false /\
      (forall c, status (qualify c lead) = status lead) /\
      (forall s, ~ In lead (get_leads_by_status (snd r) s)).
Proof.
  intros r lead_id Hin. subst r. unfold create_lead_objects_from_data in *.
  destruct (create_leads_from_ids uuids nows synthetic_data synthetic_data
              (incl_refl _) 0%nat m lead_id Hin)
    as (lead & Hget & d & Hd & Hst & Hsrc).
  exists lead, d. repeat split; try assumption.
  - now rewrite Hst.
  - intros c. eapply qualify_raw_status. exact Hst.
  - intros s Hmem. unfold get_leads_by_status in Hmem.
    apply filter_In in Hmem. destruct Hmem as [_ Hmem].
    rewrite Hst in Hmem. discriminate.
Qed.

End IngestFacts.

Lemma C10_ingested_leads_hold_raw_strings_witness :
  fst (create_lead_objects_from_data (F := Q) sample_uuids sample_nows
         empty_manager [raw_ada; raw_no_email]) = ["uuid-0"] /\
  exists lead,
    get_lead (snd (create_lead_objects_from_data (F := Q) sample_uuids sample_nows
                     empty_manager [raw_ada; raw_no_email])) "uuid-0" = Some lead /\
    status_is (status lead) NEW = false /\
    get_leads_by_status
      (snd (create_lead_objects_from_data (F := Q) sample_uuids sample_nows
              empty_manager [raw_ada; raw_no_email])) NEW = [].
Proof.
  split; [reflexivity|].
  destruct (C10_ingested_leads_hold_raw_strings (F := Q) sample_uuids sample_nows
              empty_manager [raw_ada; raw_no_email] "uuid-0")
    as (lead & d & Hget & _ & _ & _ & Hnew & _ & _).
  - now left.
  - exists lead. split; [exact Hget|]. split; [exact Hnew|]. reflexivity.
Defined.

(* ================================================================== *)
(** * Export *)
(* ================================================================== *)

Section ExportFacts.

Context {F : Type} {PF : PyFloat F}.
Implicit Types (m : LeadManager F) (lead : Lead F).

(** Whatever makes the export of one lead fail is an AttributeError. *)
Lemma export_lead_raises lead e :
  export_lead lead = Raise e -> exists msg, e = AttributeError msg.
Proof.
  unfold export_lead, isoformat_if_set.
  destruct (lead_source lead); simpl; [|intros [= <-]; eauto].
  destruct (status lead); simpl; [|intros [= <-]; eauto].
  destruct (created_at lead); simpl; try (intros [= <-]; eauto; fail).
  destruct (updated_at lead); simpl; try (intros [= <-]; eauto; fail).
  destruct (last_contacted lead) as [|lc|lc]; simpl;
    try destruct (truthy lc); simpl; try (intros [= <-]; eauto; fail);
    destruct (next_follow_up lead) as [|nf|nf]; simpl;
    try destruct (truthy nf); simpl; try (intros [= <-]; eauto; fail);
    discriminate.
Qed.

(** A lead whose updated_at is a string cannot be exported. *)
Lemma export_lead_str_updated_at lead s :
  updated_at lead = TStr s -> exists msg, export_lead lead = Raise (AttributeError msg).
Proof.
  intros Hup. destruct (export_lead lead) as [j|e] eqn:E.
  - exfalso. unfold export_lead in E. rewrite Hup in E.
    destruct (value_of _ (lead_source lead)); simpl in E; [|discriminate].
    destruct (value_of _ (status lead)); simpl in E; [|discriminate].
    destruct (isoformat (created_at lead)); simpl in E; discriminate.
  - destruct (export_lead_raises _ _ E) as [msg ->]. eauto.
Qed.

Lemma export_leads_str_updated_at (items : dict (Lead F)) k lead s :
  In (k, lead) items ->
  updated_at lead = TStr s ->
  forall acc, exists msg, export_leads items acc = Raise (AttributeError msg).
Proof.
  intros Hin Hup. induction items as [|[k0 lead0] items IH]; [destruct Hin|].
  intros acc. simpl.
  destruct (export_lead lead0) as [j|e] eqn:E; simpl.
  - destruct Hin as [[= -> ->]|Hin].
    + destruct (export_lead_str_updated_at _ _ Hup) as [msg Hmsg]. congruence.
    + apply IH. exact Hin.
  - destruct (export_lead_raises _ _ E) as [msg ->]. eauto.
Qed.

Lemma export_after_add_lead uuid now now_iso m lead lead_id m' :
  add_lead uuid now m lead = (Ok lead_id, m') ->
  exists msg, export_leads_json now_iso m' = Raise (AttributeError msg).
Proof.
  intros Hadd. destruct (add_lead_ok _ _ _ _ _ _ Hadd) as (_ & Hget & _).
  apply dict_get_In in Hget.
  destruct (export_leads_str_updated_at (leads m') _ _ now Hget) with (acc := @nil (string * json F))
    as [msg Hmsg].
  - rewrite qualify_eq. reflexivity.
  - exists msg. unfold export_leads_json. rewrite Hmsg. reflexivity.
Qed.

End ExportFacts.

(** C3 does not hold of the code.  [export_leads_json] calls [isoformat()]
    on created_at and updated_at, and [add_lead] stores updated_at as the
    string [str(datetime.now())], which has no such method: for every
    repository and every lead, once [add_lead] has succeeded the export
    raises AttributeError and returns no document.  For the first example's
    lead added to an empty repository the failing attribute is created_at
    (still None); with created_at supplied as a [datetime] it is updated_at. *)
Theorem C3_export_raises_after_add_lead :
  (forall (F : Type) (PF : PyFloat F) uuid now now_iso
          (m : LeadManager F) (lead : Lead F),
     match add_lead uuid now m lead with
     | (Ok _, m') =>
         exists msg, export_leads_json now_iso m' = Raise (AttributeError msg)
     | (Raise _, _) => True
     end) /\
  export_leads_json (F := spec_float) "2026-01-05T10:00:01"
    (snd (add_lead "uuid-0" "2026-01-05 10:00:00" empty_manager example1_lead))
  = Raise (AttributeError "'NoneType' object has no attribute 'isoformat'") /\
  export_leads_json (F := spec_float) "2026-01-05T10:00:01"
    (snd (add_lead "uuid-0" "2026-01-05 10:00:00" empty_manager example1_lead_dated))
  = Raise (AttributeError "'str' object has no attribute 'isoformat'") /\
  fst (add_lead (F := spec_float) "uuid-0" "2026-01-05 10:00:00"
         empty_manager example1_lead) = Ok "lead-1".
Proof.
  split.
  - intros F PF uuid now now_iso m lead.
    destruct (add_lead uuid now m lead) as [[lead_id|e] m'] eqn:Hadd; [|exact I].
    eapply export_after_add_lead. exact Hadd.
  - repeat split; reflexivity.
Qed.

(* ================================================================== *)
(** * Qualified and hot leads *)
(* ================================================================== *)

(** C2 does not hold of the code.  [get_qualified_leads] and [get_hot_leads]
    go through the properties [is_qualified] and [is_hot_lead] of [Lead],
    which compare the score with the constants 70.0 and 85.0; the thresholds
    of the installed criteria play no part.  In a repository created with the
    thresholds 40 and 50, a lead scored 50.5 reaches both thresholds and has
    been moved to QUALIFIED by [qualify_lead], which does read the installed
    threshold, yet neither list contains it. *)
Theorem C2_thresholds_of_criteria_ignored :
  (forall (F : Type) (PF : PyFloat F) (m : LeadManager F) (c : ScoringCriteria F),
     get_qualified_leads (set_scoring_criteria c m)
     = filter (fun lead => fge (qualification_score lead) (of_int 70))
              (dict_values (leads m)) /\
     get_hot_leads (set_scoring_criteria c m)
     = filter (fun lead => fge (qualification_score lead) (of_int 85))
              (dict_values (leads m))) /\
  (let m := low_threshold_manager (F := spec_float) in
   validate_weights (scoring_criteria m) = true /\
   qualified_threshold (scoring_criteria m) = of_int 40 /\
   hot_lead_threshold (scoring_criteria m) = of_int 50 /\
   (exists lead,
      dict_values (leads m) = [lead] /\
      qualification_score lead = of_dec 505 1 /\
      status lead = Member QUALIFIED /\
      fge (qualification_score lead) (qualified_threshold (scoring_criteria m)) = true /\
      fge (qualification_score lead) (hot_lead_threshold (scoring_criteria m)) = true) /\
   get_qualified_leads m = [] /\
   get_hot_leads m = []).
Proof.
  split.
  - intros. split; reflexivity.
  - vm_compute. repeat split. eexists. repeat split.
Qed.

(* ================================================================== *)
(** * Monotonicity of the banded sub-scores *)
(* ================================================================== *)

(** Splits every band test of the goal and discards the impossible orders. *)
Ltac split_bands :=
  repeat match goal with
         | |- context [Z.geb ?a ?b] =>
             rewrite (Z.geb_leb a b);
             destruct (Z.leb_spec b a); try lia
         end.

Lemma company_size_monotone_binary64 s1 s2 :
  1 <= s1 -> s1 <= s2 ->
  fge (F := spec_float) (_score_company_size (Some s2))
                        (_score_company_size (Some s1)) = true.
Proof.
  intros H1 H2. destruct s1 as [|p1|p1]; try lia. destruct s2 as [|p2|p2]; try lia.
  unfold _score_company_size. split_bands; reflexivity.
Qed.

Lemma company_size_monotone_exact s1 s2 :
  1 <= s1 -> s1 <= s2 ->
  fge (F := Q) (_score_company_size (Some s2)) (_score_company_size (Some s1)) = true.
Proof.
  intros H1 H2. destruct s1 as [|p1|p1]; try lia. destruct s2 as [|p2|p2]; try lia.
  unfold _score_company_size. split_bands; reflexivity.
Qed.

Lemma budget_monotone_binary64 b1 b2 annual_revenue :
  1 <= b1 -> b1 <= b2 ->
  fge (F := spec_float) (_score_budget (Some b2) annual_revenue)
                        (_score_budget (Some b1) annual_revenue) = true.
Proof.
  intros H1 H2. destruct b1 as [|p1|p1]; try lia. destruct b2 as [|p2|p2]; try lia.
  unfold _score_budget, budget_band. cbn [Z.eqb negb].
  split_bands; reflexivity.
Qed.

Lemma budget_monotone_exact b1 b2 annual_revenue :
  1 <= b1 -> b1 <= b2 ->
  fge (F := Q) (_score_budget (Some b2) annual_revenue)
               (_score_budget (Some b1) annual_revenue) = true.
Proof.
  intros H1 H2. destruct b1 as [|p1|p1]; try lia. destruct b2 as [|p2|p2]; try lia.
  unfold _score_budget, budget_band. cbn [Z.eqb negb].
  split_bands; reflexivity.
Qed.

(** C5, as the code has it.  With every other input fixed, for company sizes
    1 <= s1 <= s2 the company-size sub-score at s2 is at least the one at s1,
    and for budgets 1 <= b1 <= b2 (annual_revenue fixed) the budget sub-score
    at b2 is at least the one at b1; in double precision and in exact
    arithmetic alike. *)
Theorem C5_banded_sub_scores_monotone_from_1 s1 s2 b1 b2 annual_revenue :
  1 <= s1 -> s1 <= s2 -> 1 <= b1 -> b1 <= b2 ->
  (fge (F := spec_float) (_score_company_size (Some s2))
                         (_score_company_size (Some s1)) = true /\
   fge (F := spec_float) (_score_budget (Some b2) annual_revenue)
                         (_score_budget (Some b1) annual_revenue) = true) /\
  (fge (F := Q) (_score_company_size (Some s2)) (_score_company_size (Some s1)) = true /\
   fge (F := Q) (_score_budget (Some b2) annual_revenue)
                (_score_budget (Some b1) annual_revenue) = true).
Proof.
  intros Hs1 Hs2 Hb1 Hb2. repeat split.
  - now apply company_size_monotone_binary64.
  - now apply budget_monotone_binary64.
  - now apply company_size_monotone_exact.
  - now apply budget_monotone_exact.
Qed.

Lemma C5_banded_sub_scores_monotone_from_1_witness :
  (1 <= 499 /\ 499 <= 500 /\ 1 <= 9999 /\ 9999 <= 10000) /\
  fge (F := spec_float) (_score_company_size (Some 500))
                        (_score_company_size (Some 499)) = true /\
  fge (F := spec_float) (_score_budget (Some 10000) (Some 4000000))
                        (_score_budget (Some 9999) (Some 4000000)) = true.
Proof.
  split; [lia|].
  exact (proj1 (C5_banded_sub_scores_monotone_from_1 499 500 9999 10000 (Some 4000000)
                  ltac:(lia) ltac:(lia) ltac:(lia) ltac:(lia))).
Defined.

(** C5, as the claim has it, fails at 0, which the code reads as "unknown":
    a company size of 0 scores the default 50 and a size of 1 scores 25; a
    budget of 0 falls through to the revenue estimate or to the default 30,
    and a budget of 1 scores 20. *)
Lemma C5_zero_is_unknown_counterexample :
  (0 <= 0 /\ 0 <= 1) /\
  _score_company_size (F := spec_float) (Some 0) = of_int 50 /\
  _score_company_size (F := spec_float) (Some 1) = of_int 25 /\
  fge (F := spec_float) (_score_company_size (Some 1))
                        (_score_company_size (Some 0)) = false /\
  _score_budget (F := spec_float) (Some 0) None = of_int 30 /\
  _score_budget (F := spec_float) (Some 1) None = of_int 20 /\
  fge (F := spec_float) (_score_budget (Some 1) None)
                        (_score_budget (Some 0) None) = false /\
  _score_budget (F := spec_float) (Some 0) (Some 4000000) = of_int 100 /\
  fge (F := spec_float) (_score_budget (Some 1) (Some 4000000))
                        (_score_budget (Some 0) (Some 4000000)) = false.
Proof.
  split; [lia|]. repeat split.
Qed.

(* ================================================================== *)
(** * Range of the score *)
(* ================================================================== *)

Section SubScoreRange.

Context {F : Type} {PF : PyFloat F}.








End SubScoreRange.

Section ExactRange.

Local Open Scope Q_scope.




Lemma exact_ge_iff (x y : Q) : fge (F := Q) x y = true <-> y <= x.
Proof. apply Qle_bool_iff. Qed.






End ExactRange.



(* ================================================================== *)
(** * Strings: substring test and lower-casing *)
(* ================================================================== *)

Lemma prefix_iff k t : prefix k t = true <-> exists suf, t = k ++ suf.
Proof.
  revert k. induction t as [|d t IH]; intros [|c k]; simpl.
  - split; [intros _; now exists "" | reflexivity].
  - split; [discriminate | intros [suf H]; discriminate].
  - split; [intros _; now exists (String d t) | reflexivity].
  - destruct (ascii_dec c d) as [->|Hne].
    + rewrite IH. split; intros [suf H]; exists suf; congruence.
    + split; [discriminate|]. intros [suf H]. congruence.
Qed.

Lemma contains_iff k t :
  contains k t = true <-> exists pre suf, t = pre ++ k ++ suf.
Proof.
  induction t as [|d t IH].
  - cbn [contains]. rewrite orb_false_r, prefix_iff. split.
    + intros [suf H]. now exists "", suf.
    + intros (pre & suf & H). destruct pre; [now exists suf | discriminate].
  - cbn [contains]. rewrite orb_true_iff, prefix_iff, IH. split.
    + intros [[suf H]|(pre & suf & H)].
      * now exists "", suf.
      * exists (String d pre), suf. simpl. now rewrite H.
    + intros (pre & suf & H). destruct pre as [|e pre].
      * left. now exists suf.
      * right. exists pre, suf. simpl in H. congruence.
Qed.

Lemma string_app_assoc (a b c : string) : (a ++ b) ++ c = a ++ b ++ c.
Proof. induction a; simpl; congruence. Qed.

Lemma contains_trans a b c :
  contains a b = true -> contains b c = true -> contains a c = true.
Proof.
  rewrite !contains_iff. intros (p1 & s1 & ->) (p2 & s2 & ->).
  exists (p2 ++ p1), (s1 ++ s2). now rewrite !string_app_assoc.
Qed.

Lemma contains_app_l k a b : contains k a = true -> contains k (a ++ b) = true.
Proof.
  rewrite !contains_iff. intros (p & s & ->). exists p, (s ++ b).
  now rewrite !string_app_assoc.
Qed.

Lemma contains_app_r k a b : contains k b = true -> contains k (a ++ b) = true.
Proof.
  rewrite !contains_iff. intros (p & s & ->). exists (a ++ p), s.
  now rewrite !string_app_assoc.
Qed.

Lemma contains_empty t : contains "" t = true.
Proof. apply contains_iff. now exists "", t. Qed.

Lemma lower_ascii_idem c : lower_ascii (lower_ascii c) = lower_ascii c.
Proof. destruct c as [[] [] [] [] [] [] [] []]; reflexivity. Qed.

Lemma lower_idem s : lower (lower s) = lower s.
Proof. induction s as [|c s IH]; simpl; [reflexivity|]. now rewrite lower_ascii_idem, IH. Qed.

Lemma lower_app a b : lower (a ++ b) = lower a ++ lower b.
Proof. induction a as [|c a IH]; simpl; [reflexivity|]. now rewrite IH. Qed.

(* ================================================================== *)
(** * Looking leads up *)
(* ================================================================== *)

Section LookupFacts.

Context {F : Type} {PF : PyFloat F}.
Implicit Types (m : LeadManager F) (lead : Lead F).

(** X1.  [search_leads] with the empty query returns every lead in insertion
    order; the letter case of the query does not matter; and a stored lead is
    among the results of every query that occurs, up to letter case, in its
    first name, last name, company or email. *)
Theorem search_leads_finds m query :
  search_leads m "" = dict_values (leads m) /\
  search_leads m (lower query) = search_leads m query /\
  forall lead,
    In lead (dict_values (leads m)) ->
    contains (lower query) (lower (first_name lead)) = true \/
    contains (lower query) (lower (last_name lead)) = true \/
    contains (lower query) (lower (company lead)) = true \/
    contains (lower query) (lower (email lead)) = true ->
    In lead (search_leads m query).
Proof.
  split; [|split].
  - unfold search_leads. induction (dict_values (leads m)) as [|l ls IH]; simpl.
    + reflexivity.
    + rewrite contains_empty. now f_equal.
  - unfold search_leads. now rewrite lower_idem.
  - intros lead Hin Hhit. unfold search_leads. apply filter_In. split; [exact Hin|].
    unfold full_name. rewrite !lower_app.
    destruct Hhit as [H|[H|[H|H]]].
    + apply contains_app_l, contains_app_l. exact H.
    + apply contains_app_l, contains_app_r, contains_app_r. exact H.
    + apply contains_app_r, contains_app_r, contains_app_l. exact H.
    + apply contains_app_r, contains_app_r, contains_app_r, contains_app_r. exact H.
Qed.

End LookupFacts.

Lemma search_leads_finds_witness :
  In (qualify (F := Q) default_criteria grace)
     (dict_values (leads (two_leads_manager (F := Q)))) /\
  In (qualify (F := Q) default_criteria grace)
     (search_leads (F := Q) two_leads_manager "HOPPER").
Proof.
  assert (Hin : In (qualify (F := Q) default_criteria grace)
                   (dict_values (leads (two_leads_manager (F := Q)))))
    by (right; left; reflexivity).
  split; [exact Hin|].
  apply (proj2 (proj2 (search_leads_finds (F := Q) two_leads_manager "HOPPER"))
               _ Hin).
  right. left. reflexivity.
Defined.

(* ================================================================== *)
(** * Scoring: repetition, status, and the range of the sub-scores *)
(* ================================================================== *)

Section ScoringFacts.

Context {F : Type} {PF : PyFloat F}.
Implicit Types (m : LeadManager F) (c : ScoringCriteria F) (lead : Lead F).

Lemma weighted_score_qualify c c' lead :
  weighted_score c' (qualify c lead) = weighted_score c' lead.
Proof. rewrite qualify_eq. reflexivity. Qed.

Lemma qualify_not_new c lead : status_is (status (qualify c lead)) NEW = false.
Proof.
  rewrite qualify_status. unfold status_after.
  destruct (status_is (status lead) NEW) eqn:E; [|exact E].
  destruct (fge _ _); reflexivity.
Qed.

Lemma qualify_again c c' lead :
  qualify c' (qualify c lead)
  = set_qualification_score (round2 (weighted_score c' lead)) (qualify c lead).
Proof.
  rewrite (qualify_eq c' (qualify c lead)), weighted_score_qualify.
  unfold status_after. rewrite qualify_not_new. reflexivity.
Qed.

(** X2.  Scoring is idempotent: scoring a lead a second time under the same
    criteria changes nothing, and a second [qualify_lead] on the same id
    returns the same score and leaves the manager as the first call left
    it. *)
Theorem qualify_lead_idempotent m lead_id :
  (forall c lead, qualify c (qualify c lead) = qualify c lead) /\
  qualify_lead (snd (qualify_lead m lead_id)) lead_id
  = (fst (qualify_lead m lead_id), snd (qualify_lead m lead_id)).
Proof.
  assert (Hidem : forall c lead, qualify c (qualify c lead) = qualify c lead).
  { intros c lead. rewrite qualify_again. rewrite (qualify_eq c lead). reflexivity. }
  split; [exact Hidem|].
  destruct (get_lead m lead_id) as [lead|] eqn:Hget.
  - rewrite (qualify_lead_found _ _ _ Hget). simpl.
    rewrite (qualify_lead_found _ lead_id (qualify (scoring_criteria m) lead)).
    + simpl. rewrite Hidem, dict_set_twice. reflexivity.
    + unfold get_lead. simpl. apply dict_get_set_same.
  - unfold get_lead in Hget. unfold qualify_lead at 2 3 4. rewrite Hget. simpl.
    unfold qualify_lead. rewrite Hget. reflexivity.
Qed.

Lemma dict_get_map {A B : Type} (f : A -> B) (d : dict A) k :
  dict_get k (map (fun kv => (fst kv, f (snd kv))) d) = option_map f (dict_get k d).
Proof.
  induction d as [|[k' v] d IH]; simpl; [reflexivity|].
  destruct (k' =? k); [reflexivity | exact IH].
Qed.

(** X3.  Scoring never leaves a lead in status NEW, and once a lead has been
    scored its status is out of the reach of scoring: re-scoring under any
    other criteria keeps the status, whatever the new score.  In particular
    [update_scoring_criteria] with valid weights gives every lead whose
    status is not NEW its new score and its old status. *)
Theorem status_fixed_after_first_scoring m new_criteria :
  (forall c lead, status_is (status (qualify c lead)) NEW = false) /\
  (forall c c' lead, status (qualify c' (qualify c lead)) = status (qualify c lead)) /\
  (NoDup (dict_keys (leads m)) ->
   validate_weights new_criteria = true ->
   forall lead_id lead,
     get_lead m lead_id = Some lead ->
     status_is (status lead) NEW = false ->
     get_lead (snd (update_scoring_criteria m new_criteria)) lead_id
     = Some (set_qualification_score (round2 (weighted_score new_criteria lead)) lead)).
Proof.
  split; [exact qualify_not_new|]. split.
  - intros c c' lead. rewrite qualify_again. reflexivity.
  - intros Hnd Hval lead_id lead Hget Hnew.
    unfold update_scoring_criteria. rewrite Hval. simpl.
    rewrite requalify_all_map by exact Hnd.
    unfold get_lead in *. simpl. rewrite dict_get_map, Hget. simpl.
    rewrite qualify_eq. unfold status_after. rewrite Hnew. reflexivity.
Qed.


End ScoringFacts.

Lemma status_fixed_after_first_scoring_witness :
  NoDup (dict_keys (leads (two_leads_manager (F := Q)))) /\
  validate_weights (F := Q) authority_first = true /\
  option_map status
    (get_lead (snd (update_scoring_criteria (F := Q) two_leads_manager authority_first))
              "lead-2")
  = Some (Member UNQUALIFIED).
Proof.
  assert (Hnd : NoDup (dict_keys (leads (two_leads_manager (F := Q)))))
    by (repeat constructor; simpl; intuition discriminate).
  assert (Hval : validate_weights (F := Q) authority_first = true) by reflexivity.
  assert (Hget : get_lead (F := Q) two_leads_manager "lead-2"
                 = Some (qualify default_criteria grace)) by reflexivity.
  assert (Hnew : status_is (status (qualify (F := Q) default_criteria grace)) NEW
                 = false) by reflexivity.
  split; [exact Hnd|]. split; [exact Hval|].
  rewrite (proj2 (proj2 (status_fixed_after_first_scoring (F := Q)
                           two_leads_manager authority_first))
                 Hnd Hval "lead-2" _ Hget Hnew).
  reflexivity.
Defined.

(* ================================================================== *)
(** * The need score does not depend on the order of the pain points *)
(* ================================================================== *)

Lemma prefix_before_space k a b :
  no_space k = true -> prefix k (a ++ String " " b) = prefix k a.
Proof.
  revert k. induction a as [|x a IH]; intros [|c k] Hk; simpl; try reflexivity.
  - simpl in Hk. apply andb_true_iff in Hk. destruct Hk as [Hc _].
    destruct (ascii_dec c " ") as [->|_]; [discriminate | reflexivity].
  - simpl in Hk. apply andb_true_iff in Hk. destruct Hk as [_ Hk].
    destruct (ascii_dec c x); [now apply IH | reflexivity].
Qed.

Lemma contains_across_space k a b :
  no_space k = true ->
  contains k (a ++ String " " b) = (contains k a || contains k b)%bool.
Proof.
  intros Hk. induction a as [|x a IH].
  - change ("" ++ String " " b) with (String " " b). cbn [contains].
    rewrite orb_false_r.
    change (String " " b) with ("" ++ String " " b) at 1.
    now rewrite (prefix_before_space k "" b Hk).
  - change (String x a ++ String " " b) with (String x (a ++ String " " b)).
    cbn [contains]. rewrite IH.
    change (String x (a ++ String " " b)) with (String x a ++ String " " b).
    rewrite (prefix_before_space k (String x a) b Hk).
    now rewrite orb_assoc.
Qed.

Lemma contains_join k (l : list string) :
  no_space k = true -> k <> "" ->
  contains k (join " " l) = existsb (contains k) l.
Proof.
  intros Hk Hne. unfold join. induction l as [|p [|q rest] IH].
  - simpl. destruct k; [contradiction | reflexivity].
  - simpl. now rewrite orb_false_r.
  - change (String.concat " " (p :: q :: rest))
      with (p ++ String " " (String.concat " " (q :: rest))).
    rewrite contains_across_space by exact Hk. rewrite IH. reflexivity.
Qed.

Lemma lower_join (l : list string) : lower (join " " l) = join " " (map lower l).
Proof.
  unfold join. induction l as [|p [|q rest] IH]; [reflexivity | reflexivity |].
  change (String.concat " " (p :: q :: rest))
    with (p ++ String " " (String.concat " " (q :: rest))).
  change (String.concat " " (map lower (p :: q :: rest)))
    with (lower p ++ String " " (String.concat " " (map lower (q :: rest)))).
  rewrite lower_app.
  change (lower (String " " (String.concat " " (q :: rest))))
    with (String " " (lower (String.concat " " (q :: rest)))).
  now rewrite IH.
Qed.

Lemma existsb_permutation {A : Type} (f : A -> bool) (l l' : list A) :
  Permutation l l' -> existsb f l = existsb f l'.
Proof.
  induction 1 as [|x l l' _ IH|x y l|l l' l'' _ IH1 _ IH2]; simpl.
  - reflexivity.
  - now rewrite IH.
  - destruct (f x), (f y); reflexivity.
  - now rewrite IH1.
Qed.

Lemma high_value_keywords_plain :
  Forall (fun k => no_space k = true /\ k <> "") high_value_keywords.
Proof. repeat constructor; discriminate. Qed.

Section NeedFacts.

Context {F : Type} {PF : PyFloat F}.

Lemma _score_need_permutation (l l' : list string) :
  Permutation l l' -> _score_need l = _score_need l'.
Proof.
  intros Hp. unfold _score_need.
  destruct l as [|p ps].
  - apply Permutation_nil in Hp. now subst.
  - destruct l' as [|p' ps'].
    + apply Permutation_sym, Permutation_nil in Hp. discriminate.
    + rewrite (Permutation_length Hp).
      rewrite (filter_ext_in
                 (fun keyword => contains keyword (lower (join " " (p :: ps))))
                 (fun keyword => contains keyword (lower (join " " (p' :: ps'))))).
      * reflexivity.
      * intros k Hin.
        destruct (proj1 (Forall_forall _ _) high_value_keywords_plain k Hin)
          as [Hk Hne].
        rewrite !lower_join, !contains_join by assumption.
        apply existsb_permutation. now apply Permutation_map.
Qed.

(** X5.  The need score is the same for every ordering of the pain points, and
    the score of a lead is the same after its pain points are reordered and
    its tags replaced. *)
Theorem score_ignores_order_of_pain_points
  (c : ScoringCriteria F) (lead : Lead F) (pain_points' tags' : list string) :
  Permutation (pain_points lead) pain_points' ->
  _score_need pain_points' = _score_need (pain_points lead) /\
  qualification_score (qualify c (set_tags tags' (set_pain_points pain_points' lead)))
  = qualification_score (qualify c lead).
Proof.
  intros Hp. pose proof (_score_need_permutation _ _ Hp) as Hneed.
  split; [now symmetry|].
  rewrite !qualify_score. unfold weighted_score. simpl. now rewrite Hneed.
Qed.

End NeedFacts.

Lemma score_ignores_order_of_pain_points_witness :
  Permutation (pain_points (example1_lead (F := Q)))
              ["cost optimization"; "manual processes"] /\
  qualification_score
    (qualify (F := Q) default_criteria
       (set_tags ["enterprise"]
          (set_pain_points ["cost optimization"; "manual processes"] example1_lead)))
  = qualification_score (qualify (F := Q) default_criteria example1_lead).
Proof.
  assert (Hp : Permutation (pain_points (example1_lead (F := Q)))
                           ["cost optimization"; "manual processes"])
    by apply perm_swap.
  split; [exact Hp|].
  exact (proj2 (score_ignores_order_of_pain_points (F := Q) default_criteria
                  example1_lead _ ["enterprise"] Hp)).
Defined.

(* ================================================================== *)
(** * More on dictionaries *)
(* ================================================================== *)

Section DictMoreFacts.

Context {V : Type}.
Implicit Types (d : dict V) (k : string) (v : V).

Lemma dict_get_none_keys d k : dict_get k d = None <-> ~ In k (dict_keys d).
Proof.
  induction d as [|[k' v'] d IH]; simpl.
  - split; [intros _ [] | reflexivity].
  - destruct (String.eqb_spec k' k) as [->|Hne].
    + split; [discriminate | intros H; exfalso; apply H; now left].
    + rewrite IH. split.
      * intros H [E|Hin]; [contradiction | now apply H].
      * intros H Hin. apply H. now right.
Qed.




Lemma dict_values_set d k v x :
  In x (dict_values (dict_set k v d)) -> x = v \/ In x (dict_values d).
Proof.
  induction d as [|[k0 v0] d IH]; simpl.
  - intuition.
  - destruct (k0 =? k); simpl; intuition.
Qed.

Lemma dict_set_fresh d k v : dict_get k d = None -> dict_set k v d = (d ++ [(k, v)])%list.
Proof.
  induction d as [|[k0 v0] d IH]; simpl; [reflexivity|].
  destruct (k0 =? k); [discriminate|]. intros H. now rewrite IH.
Qed.

Lemma dict_del_set_fresh d k v : dict_get k d = None -> dict_del k (dict_set k v d) = d.
Proof.
  induction d as [|[k0 v0] d IH]; simpl.
  - now rewrite String.eqb_refl.
  - destruct (k0 =? k) eqn:E; [discriminate|]. intros H. simpl. rewrite E.
    now rewrite IH.
Qed.

Lemma dict_get_del_same d k : NoDup (dict_keys d) -> dict_get k (dict_del k d) = None.
Proof.
  induction d as [|[k0 v0] d IH]; simpl; intros Hnd; [reflexivity|].
  inversion Hnd as [|? ? Hout Hnd']; subst.
  destruct (String.eqb_spec k0 k) as [->|Hne].
  - now apply dict_get_none_keys.
  - simpl. destruct (String.eqb_spec k0 k); [contradiction | now apply IH].
Qed.

Lemma dict_get_del_other d k k' : k <> k' -> dict_get k' (dict_del k d) = dict_get k' d.
Proof.
  intros Hne. induction d as [|[k0 v0] d IH]; simpl; [reflexivity|].
  destruct (String.eqb_spec k0 k) as [->|Hne0].
  - destruct (String.eqb_spec k k'); [contradiction | reflexivity].
  - simpl. destruct (k0 =? k'); [reflexivity | exact IH].
Qed.



Lemma dict_set_values_NoDup {B : Type} (g : V -> B) d k v :
  NoDup (map g (dict_values d)) ->
  ~ In (g v) (map g (dict_values d)) ->
  NoDup (map g (dict_values (dict_set k v d))).
Proof.
  induction d as [|[k0 v0] d IH]; simpl; intros Hnd Hout.
  - repeat constructor. intros [].
  - inversion Hnd as [|? ? Hout0 Hnd']; subst.
    destruct (k0 =? k); simpl.
    + constructor; [|exact Hnd']. intros Hin. apply Hout. now right.
    + constructor.
      * intros Hin. apply in_map_iff in Hin. destruct Hin as (x & Hx & Hin).
        apply dict_values_set in Hin. destruct Hin as [->|Hin].
        -- apply Hout. left. now symmetry.
        -- apply Hout0. rewrite <- Hx. now apply in_map.
      * apply IH; [exact Hnd'|]. intros Hin. apply Hout. now right.
Qed.

End DictMoreFacts.

(* ================================================================== *)
(** * Adding and deleting leads *)
(* ================================================================== *)

Section AddDeleteFacts.

Context {F : Type} {PF : PyFloat F}.
Implicit Types (m : LeadManager F) (c : ScoringCriteria F) (lead : Lead F).

(** The manager a successful [add_lead] returns, in full. *)
Lemma add_lead_ok_state uuid now m lead lead_id m' :
  add_lead uuid now m lead = (Ok lead_id, m') ->
  let lead0 := if negb (truthy (id lead)) then set_id uuid lead else lead in
  let stored := qualify (scoring_criteria m) (set_updated_at (TStr now) lead0) in
  lead_id = id lead0 /\
  m' = mkLeadManager (dict_set lead_id stored (leads m)) (scoring_criteria m)
                     (dict_set lead_id [] (interaction_history m)).
Proof.
  intros H lead0 stored. unfold add_lead in H. fold lead0 in H.
  destruct (negb _) in H; [discriminate|].
  destruct (find_lead_by_email m (email lead0)); [discriminate|].
  set (l1 := set_updated_at (TStr now) lead0) in *.
  set (m1 := set_interaction_history _ _) in H.
  assert (Hget : get_lead m1 (id l1) = Some l1).
  { unfold get_lead. simpl. apply dict_get_set_same. }
  rewrite (qualify_lead_found _ _ _ Hget) in H.
  injection H as <- <-. split; [reflexivity|].
  unfold set_leads. simpl. now rewrite dict_set_twice.
Qed.

Lemma find_lead_by_email_none m e :
  find_lead_by_email m e = None <->
  forall lead, In lead (dict_values (leads m)) -> lower (email lead) <> lower e.
Proof.
  unfold find_lead_by_email. split.
  - intros H lead Hin Heq. pose proof (find_none _ _ H lead Hin) as Hno.
    simpl in Hno. rewrite Heq, String.eqb_refl in Hno. discriminate.
  - intros H. destruct (find _ _) as [found|] eqn:E; [|reflexivity].
    apply find_some in E. destruct E as [Hin Heq].
    apply String.eqb_eq in Heq. exfalso. now apply (H found).
Qed.

(** A successful [add_lead] found no stored lead with the new lead's email,
    whatever the letter case. *)
Lemma add_lead_ok_fresh uuid now m lead lead_id m' :
  add_lead uuid now m lead = (Ok lead_id, m') ->
  forall other, In other (dict_values (leads m)) ->
                lower (email other) <> lower (email lead).
Proof.
  intros H. unfold add_lead in H.
  set (lead0 := if negb (truthy (id lead)) then set_id uuid lead else lead) in H.
  assert (E3 : email lead0 = email lead)
    by (subst lead0; destruct (negb (truthy (id lead))); reflexivity).
  destruct (negb (truthy (first_name lead0) && truthy (last_name lead0)
                  && truthy (email lead0) && truthy (company lead0)));
    [discriminate|].
  rewrite E3 in H.
  destruct (find_lead_by_email m (email lead)) eqn:Hfind; [discriminate|].
  now apply find_lead_by_email_none.
Qed.


(** X7.  After a successful [add_lead] the returned id is the lead's own id
    (or the generated one when it had none); [get_lead] on it returns the
    lead as given, stamped with the time and scored; its interaction log is
    empty; [find_lead_by_email] finds it under its email in any letter case;
    and every other key holds the lead and the log it held before. *)
Theorem add_lead_then_lookup uuid now m lead lead_id m' :
  add_lead uuid now m lead = (Ok lead_id, m') ->
  let lead0 := if negb (truthy (id lead)) then set_id uuid lead else lead in
  let stored := qualify (scoring_criteria m) (set_updated_at (TStr now) lead0) in
  lead_id = (if truthy (id lead) then id lead else uuid) /\
  get_lead m' lead_id = Some stored /\
  get_interaction_history m' lead_id = [] /\
  (forall e, lower e = lower (email lead) -> find_lead_by_email m' e = Some stored) /\
  (forall k, k <> lead_id ->
             get_lead m' k = get_lead m k /\
             get_interaction_history m' k = get_interaction_history m k) /\
  scoring_criteria m' = scoring_criteria m.
Proof.
  intros Hadd lead0 stored.
  destruct (add_lead_ok_state _ _ _ _ _ _ Hadd) as [Hid Hm']. fold lead0 stored in Hm'.
  pose proof (add_lead_ok_fresh _ _ _ _ _ _ Hadd) as Hfresh.
  assert (Hemail : email stored = email lead).
  { subst stored. rewrite qualify_eq. simpl. subst lead0.
    destruct (negb _); reflexivity. }
  subst m'. unfold get_lead, get_interaction_history. simpl.
  split; [|split; [|split; [|split; [|split]]]].
  - rewrite Hid. subst lead0. destruct (truthy (id lead)); reflexivity.
  - apply dict_get_set_same.
  - now rewrite dict_get_set_same.
  - intros e He. unfold find_lead_by_email. simpl.
    destruct (find _ _) as [found|] eqn:E.
    + apply find_some in E. destruct E as [Hin Heq]. apply String.eqb_eq in Heq.
      apply dict_values_set in Hin. destruct Hin as [->|Hin]; [reflexivity|].
      exfalso. apply (Hfresh found Hin). congruence.
    + exfalso.
      pose proof (find_none _ _ E stored) as Hno. simpl in Hno.
      rewrite Hemail, He, String.eqb_refl in Hno.
      assert (Hin : In stored (dict_values (dict_set lead_id stored (leads m)))).
      { pose proof (dict_get_In (dict_set lead_id stored (leads m)) lead_id stored
                      (dict_get_set_same _ _ _)) as Hin.
        unfold dict_values. apply in_map_iff. exists (lead_id, stored). now split. }
      specialize (Hno Hin). discriminate.
  - intros k Hk. rewrite !dict_get_set_other by congruence. now split.
  - reflexivity.
Qed.

(** X8.  [add_lead] keeps the emails of the repository distinct up to letter
    case: if no two stored leads share an email before the call, none do
    after it, whether the call succeeds or fails. *)
Theorem add_lead_keeps_emails_unique uuid now m lead :
  emails_unique m -> emails_unique (snd (add_lead uuid now m lead)).
Proof.
  intros Huniq.
  destruct (add_lead uuid now m lead) as [[lead_id|e] m'] eqn:Hadd.
  - pose proof (add_lead_ok_state _ _ _ _ _ _ Hadd) as [_ Hm'].
    pose proof (add_lead_ok_fresh _ _ _ _ _ _ Hadd) as Hfresh.
    simpl. subst m'. unfold emails_unique. simpl.
    apply dict_set_values_NoDup; [exact Huniq|].
    intros Hin. apply in_map_iff in Hin. destruct Hin as (other & Heq & Hin).
    apply (Hfresh other Hin). rewrite Heq. rewrite qualify_eq. simpl.
    destruct (negb _); reflexivity.
  - simpl. apply add_lead_raise in Hadd. now subst.
Qed.

(** X9.  [delete_lead] on an id that is not stored returns false and changes
    nothing.  On a stored id, in a manager whose dictionaries have distinct
    keys, it returns true, after which the lead and its interaction log are
    gone while every other lead and log is as before.  Deleting a lead that
    was just added under a key new to both dictionaries restores the manager
    exactly. *)
Theorem delete_lead_removes_lead_and_log m lead_id :
  (dict_mem lead_id (leads m) = false -> delete_lead m lead_id = (false, m)) /\
  (dict_mem lead_id (leads m) = true ->
   NoDup (dict_keys (leads m)) ->
   NoDup (dict_keys (interaction_history m)) ->
   let m' := snd (delete_lead m lead_id) in
   fst (delete_lead m lead_id) = true /\
   get_lead m' lead_id = None /\
   dict_mem lead_id (interaction_history m') = false /\
   get_interaction_history m' lead_id = [] /\
   (forall k, k <> lead_id ->
              get_lead m' k = get_lead m k /\
              get_interaction_history m' k = get_interaction_history m k)) /\
  (forall uuid now lead m1,
     dict_mem lead_id (leads m) = false ->
     dict_mem lead_id (interaction_history m) = false ->
     add_lead uuid now m lead = (Ok lead_id, m1) ->
     delete_lead m1 lead_id = (true, m)).
Proof.
  split; [|split].
  - intros Hmem. unfold delete_lead. now rewrite Hmem.
  - intros Hmem Hnd Hndh m'. subst m'. unfold delete_lead. rewrite Hmem.
    unfold get_lead, get_interaction_history, dict_mem. simpl.
    rewrite !dict_get_del_same by assumption.
    repeat split; try reflexivity;
      rewrite dict_get_del_other by congruence; reflexivity.
  - intros uuid now lead m1 Hl Hh Hadd.
    destruct (add_lead_ok_state _ _ _ _ _ _ Hadd) as [_ ->].
    unfold delete_lead, dict_mem. simpl. rewrite dict_get_set_same.
    unfold set_interaction_history, set_leads. simpl.
    unfold dict_mem in Hl, Hh.
    destruct (dict_get lead_id (leads m)) eqn:E1; [discriminate|].
    destruct (dict_get lead_id (interaction_history m)) eqn:E2; [discriminate|].
    rewrite !dict_del_set_fresh by assumption. destruct m; reflexivity.
Qed.

End AddDeleteFacts.


Lemma add_lead_then_lookup_witness :
  add_lead (F := Q) "uuid-7" "2026-01-05 10:00:00" ada_manager grace
  = (Ok "lead-2",
     snd (add_lead (F := Q) "uuid-7" "2026-01-05 10:00:00" ada_manager grace)) /\
  get_interaction_history
    (snd (add_lead (F := Q) "uuid-7" "2026-01-05 10:00:00" ada_manager grace))
    "lead-2" = [] /\
  get_lead (snd (add_lead (F := Q) "uuid-7" "2026-01-05 10:00:00" ada_manager grace))
           "lead-1"
  = get_lead (F := Q) ada_manager "lead-1".
Proof.
  assert (Hadd : add_lead (F := Q) "uuid-7" "2026-01-05 10:00:00" ada_manager grace
                 = (Ok "lead-2",
                    snd (add_lead (F := Q) "uuid-7" "2026-01-05 10:00:00"
                                  ada_manager grace))) by reflexivity.
  pose proof (add_lead_then_lookup (F := Q) _ _ _ _ _ _ Hadd)
    as (_ & _ & Hlog & _ & Hother & _).
  split; [exact Hadd|]. split; [exact Hlog|].
  apply Hother. discriminate.
Defined.

Lemma add_lead_keeps_emails_unique_witness :
  emails_unique (ada_manager (F := Q)) /\
  emails_unique (snd (add_lead (F := Q) "uuid-7" "2026-01-05 10:00:00"
                               ada_manager grace)).
Proof.
  assert (Hu : emails_unique (ada_manager (F := Q))).
  { unfold emails_unique. simpl. repeat constructor. intros []. }
  split; [exact Hu|].
  exact (add_lead_keeps_emails_unique (F := Q) "uuid-7" "2026-01-05 10:00:00"
           ada_manager grace Hu).
Defined.

Lemma delete_lead_removes_lead_and_log_witness :
  (dict_mem "lead-2" (leads (two_leads_manager (F := Q))) = true /\
   NoDup (dict_keys (leads (two_leads_manager (F := Q)))) /\
   NoDup (dict_keys (interaction_history (two_leads_manager (F := Q))))) /\
  get_lead (snd (delete_lead (F := Q) two_leads_manager "lead-2")) "lead-2" = None /\
  (dict_mem "lead-2" (leads (ada_manager (F := Q))) = false /\
   dict_mem "lead-2" (interaction_history (ada_manager (F := Q))) = false) /\
  delete_lead
    (snd (add_lead (F := Q) "uuid-7" "2026-01-05 10:00:00" ada_manager grace))
    "lead-2"
  = (true, ada_manager).
Proof.
  assert (Hnd : NoDup (dict_keys (leads (two_leads_manager (F := Q)))))
    by (repeat constructor; simpl; intuition discriminate).
  assert (Hndh : NoDup (dict_keys (interaction_history (two_leads_manager (F := Q)))))
    by (repeat constructor; simpl; intuition discriminate).
  assert (Hadd : add_lead (F := Q) "uuid-7" "2026-01-05 10:00:00" ada_manager grace
                 = (Ok "lead-2",
                    snd (add_lead (F := Q) "uuid-7" "2026-01-05 10:00:00"
                                  ada_manager grace))) by reflexivity.
  split; [split; [reflexivity | split; assumption]|].
  split.
  - exact (proj1 (proj2 (proj1 (proj2 (delete_lead_removes_lead_and_log (F := Q)
                                          two_leads_manager "lead-2"))
                               eq_refl Hnd Hndh))).
  - split; [split; reflexivity|].
    exact (proj2 (proj2 (delete_lead_removes_lead_and_log (F := Q)
                           ada_manager "lead-2"))
                 _ _ _ _ eq_refl eq_refl Hadd).
Defined.

(* ================================================================== *)
(** * What every reachable repository satisfies *)
(* ================================================================== *)

Section InvariantFacts.

Context {F : Type} {PF : PyFloat F}.
Implicit Types (m : LeadManager F) (c : ScoringCriteria F) (lead : Lead F).












End InvariantFacts.


(* ================================================================== *)
(** * Updating a lead: what stays *)
(* ================================================================== *)

Section UpdateFrameFacts.

Context {F : Type} {PF : PyFloat F}.
Implicit Types (m : LeadManager F) (c : ScoringCriteria F) (lead : Lead F).
Implicit Types (updates : list (update F)).



End UpdateFrameFacts.


(** X12.  The title feeds the authority sub-score, but title is not among the
    fields whose update triggers re-scoring: after [update_lead] with the
    title alone, the stored lead has the new title and the score and status
    it had before, and only a later [qualify_lead] brings the score in line.
    In double precision, giving Grace, scored 38.0 without a title, the
    title "CEO" leaves 38.0 stored where re-scoring gives 49.0. *)
Theorem update_of_title_keeps_stale_score :
  (forall (F : Type) (PF : PyFloat F) now (m : LeadManager F) lead_id lead new_title,
     get_lead m lead_id = Some lead ->
     let m' := snd (update_lead now m lead_id [Set_title new_title]) in
     get_lead m' lead_id = Some (set_updated_at (TStr now) (set_title new_title lead)) /\
     fst (qualify_lead m' lead_id)
     = round2 (weighted_score (scoring_criteria m) (set_title new_title lead))) /\
  (let m' := snd (update_lead (F := spec_float) "2026-01-05 10:00:00"
                              two_leads_manager "lead-2" [Set_title (Some "CEO")]) in
   option_map qualification_score (get_lead m' "lead-2") = Some (of_int 38) /\
   fst (qualify_lead m' "lead-2") = of_int 49).
Proof.
  split.
  - intros F PF now m lead_id lead new_title Hget m'. subst m'.
    rewrite (update_lead_found _ _ _ _ _ Hget).
    change (requalifies [Set_title new_title]) with false. simpl.
    split; [unfold get_lead; simpl; apply dict_get_set_same|].
    rewrite (qualify_lead_found _ lead_id
               (set_updated_at (TStr now) (set_title new_title lead))).
    + simpl. rewrite qualify_score. reflexivity.
    + unfold get_lead. simpl. apply dict_get_set_same.
  - vm_compute. split; reflexivity.
Qed.

Lemma update_of_title_keeps_stale_score_witness :
  get_lead (F := Q) two_leads_manager "lead-2"
  = Some (qualify default_criteria grace) /\
  get_lead (snd (update_lead (F := Q) "2026-01-05 10:00:00" two_leads_manager
                             "lead-2" [Set_title (Some "CEO")])) "lead-2"
  = Some (set_updated_at (TStr "2026-01-05 10:00:00")
            (set_title (Some "CEO") (qualify default_criteria grace))).
Proof.
  split; [reflexivity|].
  exact (proj1 (proj1 update_of_title_keeps_stale_score Q exact
                  "2026-01-05 10:00:00" two_leads_manager "lead-2" _ (Some "CEO")
                  eq_refl)).
Defined.

(* ================================================================== *)
(** * Logging interactions *)
(* ================================================================== *)

Section InteractionFacts.

Context {F : Type} {PF : PyFloat F}.
Implicit Types (m : LeadManager F) (lead : Lead F).

(** X13.  For a stored lead that has a log, [add_interaction] returns true
    and appends one record, made of the given type and details, at the end of
    that lead's log.  The lead's last_contacted is set to the time of the
    call exactly when the type is "email", "call" or "meeting" (as written,
    in lower case); nothing else in the lead changes, and no other lead or
    log is touched.  For an id that is not stored it returns false and
    changes nothing; for a stored lead without a log it raises KeyError and
    changes nothing. *)
Theorem add_interaction_appends uuid now_iso now m lead_id interaction_type details :
  (get_lead m lead_id = None ->
   add_interaction uuid now_iso now m lead_id interaction_type details = (Ok false, m)) /\
  (forall lead,
     get_lead m lead_id = Some lead ->
     dict_get lead_id (interaction_history m) = None ->
     add_interaction uuid now_iso now m lead_id interaction_type details
     = (Raise (KeyError lead_id), m)) /\
  (forall lead log,
     get_lead m lead_id = Some lead ->
     dict_get lead_id (interaction_history m) = Some log ->
     let r := add_interaction uuid now_iso now m lead_id interaction_type details in
     fst r = Ok true /\
     get_interaction_history (snd r) lead_id
     = (log ++ [mkInteraction uuid now_iso interaction_type details])%list /\
     get_lead (snd r) lead_id
     = Some (if existsb (String.eqb interaction_type) ["email"; "call"; "meeting"]
             then set_last_contacted (TStr now) lead else lead) /\
     (forall k, k <> lead_id ->
                get_lead (snd r) k = get_lead m k /\
                get_interaction_history (snd r) k = get_interaction_history m k) /\
     scoring_criteria (snd r) = scoring_criteria m).
Proof.
  split; [|split].
  - intros Hget. unfold get_lead in Hget. unfold add_interaction. now rewrite Hget.
  - intros lead Hget Hlog. unfold get_lead in Hget. unfold add_interaction.
    now rewrite Hget, Hlog.
  - intros lead log Hget Hlog r. subst r. unfold get_lead in Hget.
    unfold add_interaction.
    rewrite Hget, Hlog. unfold get_interaction_history, get_lead.
    destruct (existsb _ _); simpl.
    + rewrite !dict_get_set_same. repeat split; try reflexivity;
        rewrite dict_get_set_other by congruence; reflexivity.
    + rewrite dict_get_set_same, Hget. repeat split; try reflexivity.
      rewrite dict_get_set_other by congruence; reflexivity.
Qed.

End InteractionFacts.

Lemma add_interaction_appends_witness :
  get_lead (F := Q) two_leads_manager "lead-2"
  = Some (qualify default_criteria grace) /\
  dict_get "lead-2" (interaction_history (two_leads_manager (F := Q))) = Some [] /\
  get_interaction_history
    (snd (add_interaction (F := Q) "uuid-1" "2026-01-05T11:00:00" "2026-01-05 11:00:00"
            two_leads_manager "lead-2" "call" "left a message")) "lead-2"
  = [mkInteraction "uuid-1" "2026-01-05T11:00:00" "call" "left a message"].
Proof.
  split; [reflexivity|]. split; [reflexivity|].
  exact (proj1 (proj2 (proj2 (proj2 (add_interaction_appends (F := Q)
            "uuid-1" "2026-01-05T11:00:00" "2026-01-05 11:00:00"
            two_leads_manager "lead-2" "call" "left a message"))
          _ _ eq_refl eq_refl))).
Defined.

(* ================================================================== *)
(** * Counting leads *)
(* ================================================================== *)

Section SummaryFacts.

Context {F : Type} {PF : PyFloat F}.
Implicit Types (m : LeadManager F) (lead : Lead F).

(** Over the eight statuses, the leads counted are those whose status is a
    member of the enumeration, each once. *)
Lemma status_counts_add_up (ls : list (Lead F)) :
  fold_right Z.add 0
    (map (fun s => Z.of_nat (List.length
                               (filter (fun lead => status_is (status lead) s) ls)))
         LeadStatus_members)
  = Z.of_nat (List.length
                (filter (fun lead => match status lead with
                                     | Member _ => true
                                     | RawStr _ => false
                                     end) ls)).
Proof.
  assert (Hstep : forall (f : Lead F -> bool) x xs,
             Z.of_nat (List.length (filter f (x :: xs)))
             = (if f x then 1 else 0) + Z.of_nat (List.length (filter f xs))).
  { intros f x xs. simpl. destruct (f x); simpl List.length; lia. }
  induction ls as [|l ls IH]; [reflexivity|].
  cbn [LeadStatus_members map fold_right] in *.
  rewrite !Hstep. cbn beta.
  repeat match type of IH with
         | context [Z.of_nat (List.length (filter ?f ls))] =>
             let n := fresh "n" in
             set (n := Z.of_nat (List.length (filter f ls))) in *; clearbody n
         end.
  destruct (status l) as [[]|raw];
    cbn [status_is LeadStatus_eqb LeadStatus_value String.eqb Ascii.eqb Bool.eqb];
    lia.
Qed.

Lemma filter_length_le {A : Type} (f : A -> bool) (l : list A) :
  (List.length (filter f l) <= List.length l)%nat.
Proof.
  induction l as [|x l IH]; simpl; [lia|]. destruct (f x); simpl; lia.
Qed.

(** X14.  [get_pipeline_summary] of an empty repository has the total alone.
    Otherwise it reports the number of leads, the lengths of
    [get_qualified_leads] and [get_hot_leads] (neither above the total), and
    one count per status in the order of the enumeration.  The counts add up
    to the number of leads whose status is a member of the enumeration: a
    lead holding a plain string there is in the total and in no count. *)
Theorem pipeline_summary_counts (py_sum : list F -> F) (fdiv : F -> F -> F) m :
  (leads m = [] -> get_pipeline_summary py_sum fdiv m = EmptyPipeline) /\
  (leads m <> [] ->
   exists rate average breakdown,
     get_pipeline_summary py_sum fdiv m
     = Pipeline (Z.of_nat (List.length (leads m)))
                (Z.of_nat (List.length (get_qualified_leads m)))
                (Z.of_nat (List.length (get_hot_leads m)))
                rate average breakdown /\
     dict_keys breakdown = map LeadStatus_value LeadStatus_members /\
     (forall s, dict_get (LeadStatus_value s) breakdown
                = Some (Z.of_nat (List.length (get_leads_by_status m s)))) /\
     fold_right Z.add 0 (dict_values breakdown) = Z.of_nat (member_statuses m) /\
     (member_statuses m <= List.length (leads m))%nat /\
     (List.length (get_qualified_leads m) <= List.length (leads m))%nat /\
     (List.length (get_hot_leads m) <= List.length (leads m))%nat).
Proof.
  assert (Hlen : List.length (dict_values (leads m)) = List.length (leads m))
    by apply length_map.
  split.
  - intros H. unfold get_pipeline_summary. now rewrite H.
  - intros Hne. unfold get_pipeline_summary.
    destruct (Z.eqb_spec (Z.of_nat (List.length (leads m))) 0) as [E|_].
    { destruct (leads m); [contradiction | simpl in E; lia]. }
    eexists. eexists. eexists. split; [reflexivity|].
    split; [reflexivity|]. split; [|split; [|split; [|split]]].
    + intros []; reflexivity.
    + unfold member_statuses. rewrite <- status_counts_add_up. reflexivity.
    + unfold member_statuses. rewrite <- Hlen. apply filter_length_le.
    + unfold get_qualified_leads. rewrite <- Hlen. apply filter_length_le.
    + unfold get_hot_leads. rewrite <- Hlen. apply filter_length_le.
Qed.

End SummaryFacts.

Lemma pipeline_summary_counts_witness :
  leads (two_leads_manager (F := Q)) <> [] /\
  exists rate average breakdown,
    get_pipeline_summary (F := Q) (fold_right Qplus 0%Q) Qdiv two_leads_manager
    = Pipeline 2 1 1 rate average breakdown /\
    dict_get "unqualified" breakdown = Some 1.
Proof.
  assert (Hne : leads (two_leads_manager (F := Q)) <> []) by discriminate.
  split; [exact Hne|].
  destruct (proj2 (pipeline_summary_counts (F := Q) (fold_right Qplus 0%Q) Qdiv
                     two_leads_manager) Hne)
    as (rate & average & breakdown & Heq & _ & Hget & _).
  exists rate, average, breakdown. split; [exact Heq|].
  exact (Hget UNQUALIFIED).
Defined.

(** Two positive doubles with one exponent compare with a third as their
    mantissas do. *)
Lemma SFleb_smaller_mantissa (a b : positive) (e : Z) (x : spec_float) :
  (b <= a)%positive ->
  SFleb (S754_finite false a e) x = true -> SFleb (S754_finite false b e) x = true.
Proof.
  intros Hba. unfold SFleb, SFcompare.
  destruct x as [s|[]| |[] mx ex]; try discriminate; try reflexivity.
  destruct (Z.compare e ex); try discriminate; try reflexivity.
  change (Pos.compare_cont Eq a mx) with (Pos.compare a mx).
  change (Pos.compare_cont Eq b mx) with (Pos.compare b mx).
  destruct (Pos.compare_spec a mx) as [E|E|E]; try discriminate;
    intros _; destruct (Pos.compare_spec b mx); try reflexivity; lia.
Qed.

(** A score that reaches 85 reaches 70, in either arithmetic. *)
Lemma hot_is_qualified_binary64 (x : spec_float) :
  fge (F := spec_float) x (of_int 85) = true -> fge (F := spec_float) x (of_int 70) = true.
Proof.
  change (of_int (F := spec_float) 85) with (S754_finite false 5981343255101440 (-46)).
  change (of_int (F := spec_float) 70) with (S754_finite false 4925812092436480 (-46)).
  change (fge (F := spec_float)) with Binary64.ge. unfold Binary64.ge.
  apply SFleb_smaller_mantissa. vm_compute. discriminate.
Qed.

Lemma hot_is_qualified_exact (x : Q) :
  fge (F := Q) x (of_int 85) = true -> fge (F := Q) x (of_int 70) = true.
Proof.
  rewrite !exact_ge_iff. change (of_int (F := Q) 85) with 85%Q.
  change (of_int (F := Q) 70) with 70%Q. intros H. lra.
Qed.

Lemma filter_of_stronger {A : Type} (f g : A -> bool) (l : list A) :
  (forall x, g x = true -> f x = true) -> filter g (filter f l) = filter g l.
Proof.
  intros Himp. induction l as [|x l IH]; simpl; [reflexivity|].
  destruct (f x) eqn:Ef; simpl.
  - destruct (g x); now rewrite IH.
  - destruct (g x) eqn:Eg; [|exact IH]. apply Himp in Eg. congruence.
Qed.

(** X15.  Every hot lead is a qualified lead: [get_hot_leads] returns the
    leads of [get_qualified_leads] whose score reaches 85, in the same order.
    This holds in double precision, for every score a lead can carry
    (infinities and NaN included), and in exact arithmetic. *)
Theorem hot_leads_are_qualified_leads :
  (forall m : LeadManager spec_float,
     get_hot_leads m = filter is_hot_lead (get_qualified_leads m)) /\
  (forall m : LeadManager Q,
     get_hot_leads m = filter is_hot_lead (get_qualified_leads m)).
Proof.
  split; intros m; unfold get_hot_leads, get_qualified_leads;
    symmetry; apply filter_of_stronger; intros lead; unfold is_hot_lead, is_qualified.
  - apply hot_is_qualified_binary64.
  - apply hot_is_qualified_exact.
Qed.

(* ================================================================== *)
(** * Export: when it succeeds and what it contains *)
(* ================================================================== *)

Section ExportMoreFacts.

Context {F : Type} {PF : PyFloat F}.
Implicit Types (m : LeadManager F) (lead : Lead F).

Lemma export_lead_ok_iff lead :
  (exists j, export_lead lead = Ok j) <-> exportable lead = true.
Proof.
  unfold export_lead, exportable, isoformat_if_set.
  destruct (lead_source lead), (status lead), (created_at lead), (updated_at lead);
    simpl; try (split; [intros [j H]; discriminate | discriminate]).
  destruct (last_contacted lead) as [|lc|lc]; simpl;
    try destruct (truthy lc); simpl;
    try (split; [intros [j H]; discriminate | discriminate]);
    destruct (next_follow_up lead) as [|nf|nf]; simpl;
    try destruct (truthy nf); simpl;
    try (split; [intros [j H]; discriminate | discriminate]);
    (split; [reflexivity | eauto]).
Qed.

(** The dictionary exported for a lead has the twenty-one keys, in order, and
    carries the lead's own values. *)
Lemma export_lead_fields lead j :
  export_lead lead = Ok j ->
  exists fields,
    j = JObj fields /\
    dict_keys fields = exported_fields /\
    dict_get "email" fields = Some (JStr (email lead)) /\
    dict_get "qualification_score" fields = Some (JFloat (qualification_score lead)).
Proof.
  unfold export_lead.
  destruct (value_of _ (lead_source lead)); simpl; [|discriminate].
  destruct (value_of _ (status lead)); simpl; [|discriminate].
  destruct (isoformat (created_at lead)); simpl; [|discriminate].
  destruct (isoformat (updated_at lead)); simpl; [|discriminate].
  destruct (isoformat_if_set (last_contacted lead)); simpl; [|discriminate].
  destruct (isoformat_if_set (next_follow_up lead)); simpl; [|discriminate].
  intros [= <-]. eexists. split; [reflexivity|]. repeat split.
Qed.

Lemma export_leads_ok_iff (items : dict (Lead F)) :
  forall acc,
    (exists out, export_leads items acc = Ok out) <->
    forallb exportable (dict_values items) = true.
Proof.
  induction items as [|[k lead] items IH]; intros acc; simpl.
  - split; [reflexivity | eauto].
  - rewrite andb_true_iff, <- export_lead_ok_iff. split.
    + intros [out H]. destruct (export_lead lead) as [j|e]; [|discriminate].
      simpl in H. split; [eauto|]. apply (IH (dict_set k j acc)). eauto.
    + intros [[j Hj] Hrest]. rewrite Hj. simpl. now apply IH.
Qed.

Lemma export_leads_untouched (items : dict (Lead F)) :
  forall acc out k,
    export_leads items acc = Ok out ->
    ~ In k (dict_keys items) ->
    dict_get k out = dict_get k acc.
Proof.
  induction items as [|[k0 lead] items IH]; intros acc out k H Hout; simpl in *.
  - now injection H as <-.
  - destruct (export_lead lead) as [j|e]; [|discriminate]. simpl in H.
    rewrite (IH _ _ k H) by tauto.
    apply dict_get_set_other. tauto.
Qed.

Lemma export_leads_entries (items : dict (Lead F)) :
  forall acc out,
    export_leads items acc = Ok out ->
    NoDup (dict_keys items) ->
    forall k lead,
      dict_get k items = Some lead ->
      exists j, export_lead lead = Ok j /\ dict_get k out = Some j.
Proof.
  induction items as [|[k0 lead0] items IH]; intros acc out H Hnd k lead Hget;
    simpl in *; [discriminate|].
  inversion Hnd as [|? ? Hfresh Hnd']; subst.
  destruct (export_lead lead0) as [j0|e] eqn:E0; [|discriminate]. simpl in H.
  destruct (String.eqb_spec k0 k) as [->|Hne].
  - injection Hget as <-. exists j0. split; [exact E0|].
    rewrite (export_leads_untouched _ _ _ k H Hfresh). apply dict_get_set_same.
  - eapply IH; eassumption.
Qed.

Lemma export_leads_keys (items : dict (Lead F)) :
  forall acc out,
    export_leads items acc = Ok out ->
    NoDup (dict_keys acc ++ dict_keys items) ->
    dict_keys out = (dict_keys acc ++ dict_keys items)%list.
Proof.
  induction items as [|[k lead] items IH]; intros acc out H Hnd; simpl in *.
  - injection H as <-. now rewrite app_nil_r.
  - destruct (export_lead lead) as [j|e]; [|discriminate]. simpl in H.
    assert (Hfresh : dict_get k acc = None).
    { apply dict_get_none_keys. intros Hin.
      apply NoDup_remove_2 in Hnd. apply Hnd. apply in_or_app. now left. }
    rewrite (dict_set_fresh _ _ j Hfresh) in H.
    rewrite (IH _ _ H).
    + unfold dict_keys. rewrite map_app, <- app_assoc. reflexivity.
    + unfold dict_keys. rewrite map_app, <- app_assoc. exact Hnd.
Qed.

(** X16.  [export_leads_json] returns a document exactly when every stored
    lead can be serialised: lead_source and status hold members of their
    enumerations, created_at and updated_at hold [datetime] objects, and
    last_contacted and next_follow_up hold a [datetime] or nothing.  The
    document then has the entries leads, scoring_criteria (the seven values
    of the installed criteria) and export_timestamp; under leads there is one
    entry per stored lead, in insertion order, each with the twenty-one field
    names and the lead's own email and score. *)
Theorem export_succeeds_iff_all_exportable now_iso m :
  ((exists j, export_leads_json now_iso m = Ok j) <->
   forallb exportable (dict_values (leads m)) = true) /\
  (forall j,
     export_leads_json now_iso m = Ok j ->
     NoDup (dict_keys (leads m)) ->
     exists entries,
       j = JObj [("leads", JObj entries);
                 ("scoring_criteria", export_criteria (scoring_criteria m));
                 ("export_timestamp", JStr now_iso)] /\
       dict_keys entries = dict_keys (leads m) /\
       forall lead_id lead,
         get_lead m lead_id = Some lead ->
         exists fields,
           dict_get lead_id entries = Some (JObj fields) /\
           dict_keys fields = exported_fields /\
           dict_get "email" fields = Some (JStr (email lead)) /\
           dict_get "qualification_score" fields
           = Some (JFloat (qualification_score lead))).
Proof.
  unfold export_leads_json. split.
  - rewrite <- (export_leads_ok_iff (leads m) []). split.
    + intros [j H]. destruct (export_leads (leads m) []) as [out|e]; [eauto|discriminate].
    + intros [out ->]. simpl. eauto.
  - intros j H Hnd.
    destruct (export_leads (leads m) []) as [out|e] eqn:E; [|discriminate].
    simpl in H. injection H as <-. exists out. split; [reflexivity|]. split.
    + apply (export_leads_keys _ _ _ E). exact Hnd.
    + intros lead_id lead Hget.
      destruct (export_leads_entries _ _ _ E Hnd lead_id lead Hget) as (j & Hj & Hout).
      destruct (export_lead_fields _ _ Hj) as (fields & -> & Hkeys & Hem & Hsc).
      exists fields. repeat split; assumption.
Qed.

End ExportMoreFacts.

Lemma export_succeeds_iff_all_exportable_witness :
  NoDup (dict_keys (leads (dated_manager (F := Q)))) /\
  forallb exportable (dict_values (leads (dated_manager (F := Q)))) = true /\
  exists j, export_leads_json (F := Q) "2026-01-05T12:00:00" dated_manager = Ok j.
Proof.
  split; [repeat constructor; intros []|].
  split; [reflexivity|].
  apply (proj2 (proj1 (export_succeeds_iff_all_exportable (F := Q)
                         "2026-01-05T12:00:00" dated_manager))).
  reflexivity.
Defined.

(* ================================================================== *)
(** * Bulk ingestion: what it leaves alone *)
(* ================================================================== *)

Section IngestFrameFacts.

Context {F : Type} {PF : PyFloat F}.
Implicit Types (m : LeadManager F) (lead : Lead F).




End IngestFrameFacts.


(* ================================================================== *)
(** * Which raw dictionaries become leads *)
(* ================================================================== *)

Lemma LeadStatus_of_value_some v :
  (exists s, LeadStatus_of_value v = Some s) <-> In v (map LeadStatus_value LeadStatus_members).
Proof.
  unfold LeadStatus_of_value. split.
  - intros [s H]. apply find_some in H. destruct H as [Hin Heq].
    apply String.eqb_eq in Heq. subst v. now apply in_map.
  - intros Hin. apply in_map_iff in Hin. destruct Hin as (s & <- & Hin).
    destruct (find _ _) as [s'|] eqn:E; [eauto|].
    pose proof (find_none _ _ E s Hin) as Hno. simpl in Hno.
    now rewrite String.eqb_refl in Hno.
Qed.

Lemma LeadSource_of_value_some v :
  (exists s, LeadSource_of_value v = Some s) <-> In v (map LeadSource_value LeadSource_members).
Proof.
  unfold LeadSource_of_value. split.
  - intros [s H]. apply find_some in H. destruct H as [Hin Heq].
    apply String.eqb_eq in Heq. subst v. now apply in_map.
  - intros Hin. apply in_map_iff in Hin. destruct Hin as (s & <- & Hin).
    destruct (find _ _) as [s'|] eqn:E; [eauto|].
    pose proof (find_none _ _ E s Hin) as Hno. simpl in Hno.
    now rewrite String.eqb_refl in Hno.
Qed.

Section RawLeadFacts.

Context {F : Type} {PF : PyFloat F}.

(** X18.  Looking a member up by its value inverts [.value], for both
    enumerations.  A raw dictionary becomes a [Lead] exactly when its
    lead_source and status (taken as "other" and "new" when absent) are among
    the eight values of their enumerations and the keys first_name,
    last_name, email and company are present.  Otherwise the construction
    raises: ValueError for a string that names no member, which is checked
    first, KeyError for a missing key. *)
Theorem lead_from_data_succeeds_iff uuid (data : RawLead) :
  (forall s, LeadStatus_of_value (LeadStatus_value s) = Some s) /\
  (forall s, LeadSource_of_value (LeadSource_value s) = Some s) /\
  ((exists lead : Lead F, lead_from_data uuid data = Ok lead) <->
   (In (get_or "other" (raw_lead_source data)) (map LeadSource_value LeadSource_members) /\
    In (get_or "new" (raw_status data)) (map LeadStatus_value LeadStatus_members) /\
    raw_first_name data <> None /\ raw_last_name data <> None /\
    raw_email data <> None /\ raw_company data <> None)) /\
  (~ In (get_or "other" (raw_lead_source data)) (map LeadSource_value LeadSource_members)
   \/ ~ In (get_or "new" (raw_status data)) (map LeadStatus_value LeadStatus_members) ->
   exists msg, lead_from_data (F := F) uuid data = Raise (ValueError msg)) /\
  (forall e, lead_from_data (F := F) uuid data = Raise e ->
             (exists msg, e = ValueError msg) \/ (exists key, e = KeyError key)).
Proof.
  split; [intros []; reflexivity|]. split; [intros []; reflexivity|].
  pose proof (LeadSource_of_value_some (get_or "other" (raw_lead_source data))) as Hsrc.
  pose proof (LeadStatus_of_value_some (get_or "new" (raw_status data))) as Hst.
  unfold lead_from_data.
  destruct (LeadSource_of_value _) as [src|].
  - destruct (LeadStatus_of_value _) as [st|].
    + assert (Hs1 : In (get_or "other" (raw_lead_source data))
                       (map LeadSource_value LeadSource_members))
        by (apply Hsrc; eauto).
      assert (Hs2 : In (get_or "new" (raw_status data))
                       (map LeadStatus_value LeadStatus_members))
        by (apply Hst; eauto).
      destruct (raw_first_name data), (raw_last_name data), (raw_email data),
        (raw_company data); simpl;
        (split; [split; [intros [lead H]; try discriminate;
                         repeat split; try assumption; discriminate
                        | intros (_ & _ & H1 & H2 & H3 & H4);
                          try contradiction; eauto]
                |split; [intros [H|H]; contradiction
                        | intros e [= <-]; eauto]]).
    + split; [|split].
      * split; [intros [lead H]; discriminate|].
        intros (_ & H & _). apply Hst in H. destruct H; discriminate.
      * intros _. eauto.
      * intros e [= <-]. eauto.
  - split; [|split].
    + split; [intros [lead H]; discriminate|].
      intros (H & _). apply Hsrc in H. destruct H; discriminate.
    + intros _. eauto.
    + intros e [= <-]. eauto.
Qed.

End RawLeadFacts.

Lemma lead_from_data_succeeds_iff_witness :
  (exists lead : Lead Q, lead_from_data "uuid-0" raw_ada = Ok lead) /\
  In (get_or "new" (raw_status raw_ada)) (map LeadStatus_value LeadStatus_members).
Proof.
  assert (H : exists lead : Lead Q, lead_from_data "uuid-0" raw_ada = Ok lead)
    by (eexists; reflexivity).
  split; [exact H|].
  exact (proj1 (proj2 (proj1 (proj1 (proj2 (proj2
           (lead_from_data_succeeds_iff (F := Q) "uuid-0" raw_ada))) ) H))).
Defined.

(* ================================================================== *)
(** * Local commands of the chat interface *)
(* ================================================================== *)

Section ChatFacts.

Context {F : Type} {PF : PyFloat F}.
Variable py_sum : list F -> F.
Variable fdiv : F -> F -> F.

(** X19.  [process_local_query] does not depend on the letter case of the
    query.  A query that mentions "qualified" anywhere - and so also one that
    mentions "unqualified" - is answered locally: with the total when it also
    mentions both "count" and "leads", and otherwise with the number of leads
    scoring at least 70, which is the number of leads with [is_qualified],
    out of the total. *)
Theorem process_local_query_qualified (leads_data : list (Lead F)) (query : string) :
  process_local_query py_sum fdiv leads_data (lower query)
  = process_local_query py_sum fdiv leads_data query /\
  (contains "qualified" (lower query) = true \/
   contains "unqualified" (lower query) = true ->
   process_local_query py_sum fdiv leads_data query
   = Some (if contains "count" (lower query) && contains "leads" (lower query)
           then TotalLeads (List.length leads_data)
           else QualifiedLeads (List.length (filter is_qualified leads_data))
                               (List.length leads_data))).
Proof.
  split.
  - unfold process_local_query. now rewrite lower_idem.
  - intros H.
    assert (Hq : contains "qualified" (lower query) = true).
    { destruct H as [H|H]; [exact H|].
      apply (contains_trans "qualified" "unqualified"); [reflexivity | exact H]. }
    unfold process_local_query. rewrite Hq.
    destruct (contains "count" (lower query) && contains "leads" (lower query));
      reflexivity.
Qed.

End ChatFacts.

Lemma process_local_query_qualified_witness :
  contains "unqualified" (lower "Show me the UNQUALIFIED leads") = true /\
  process_local_query (F := Q) (fold_right Qplus 0%Q) Qdiv
    (dict_values (leads two_leads_manager)) "Show me the UNQUALIFIED leads"
  = Some (QualifiedLeads 1 2).
Proof.
  split; [reflexivity|].
  rewrite (proj2 (process_local_query_qualified (F := Q) (fold_right Qplus 0%Q) Qdiv
                    (dict_values (leads two_leads_manager))
                    "Show me the UNQUALIFIED leads")
                 (or_intror eq_refl)).
  reflexivity.
Defined.

(* ================================================================== *)
(** * The rubric: letter case, more pain points, revenue *)
(* ================================================================== *)

Lemma truthy_lower s : truthy (lower s) = truthy s.
Proof. destruct s; reflexivity. Qed.

Lemma filter_length_mono {A : Type} (f g : A -> bool) (l : list A) :
  (forall x, f x = true -> g x = true) ->
  (List.length (filter f l) <= List.length (filter g l))%nat.
Proof.
  intros Himp. induction l as [|x l IH]; simpl; [lia|].
  destruct (f x) eqn:Ef.
  - rewrite (Himp x Ef). simpl. lia.
  - destruct (g x); simpl; lia.
Qed.

Section RubricFacts.

Context {F : Type} {PF : PyFloat F}.

(** X20.  The authority and need scores do not depend on letter case: a
    title, and the pain points, score the same written in lower case. *)
Theorem authority_and_need_ignore_letter_case
  (is_decision_maker : bool) (title : option string) (pain_points : list string) :
  _score_authority is_decision_maker (option_map lower title)
  = _score_authority is_decision_maker title /\
  _score_need (map lower pain_points) = _score_need pain_points.
Proof.
  split.
  - unfold _score_authority. destruct title as [t|]; simpl; [|reflexivity].
    now rewrite truthy_lower, lower_idem.
  - unfold _score_need. destruct pain_points as [|p ps]; [reflexivity|].
    cbn [map]. change (lower p :: map lower ps) with (map lower (p :: ps)).
    rewrite length_map, <- lower_join, lower_idem. reflexivity.
Qed.

(** X21.  For a lead that has at least one pain point, one more pain point
    never lowers the need score.  From no pain point to one it can drop: the
    empty list scores 30, a single pain point without any keyword 25. *)
Theorem need_score_with_one_more_pain_point (p : string) (l : list string) :
  (l <> [] ->
   exists z z', _score_need l = of_int z /\ _score_need (p :: l) = of_int z' /\ z <= z') /\
  (filter (fun keyword => contains keyword (lower p)) high_value_keywords = [] ->
   _score_need [p] = of_int 25 /\ _score_need ([] : list string) = of_int 30).
Proof.
  split.
  - intros Hne. destruct l as [|q qs]; [contradiction|].
    unfold _score_need.
    set (n := List.length (q :: qs)).
    change (List.length (p :: q :: qs)) with (S n).
    set (k := List.length (filter (fun keyword =>
                 contains keyword (lower (join " " (q :: qs)))) high_value_keywords)).
    set (k' := List.length (filter (fun keyword =>
                 contains keyword (lower (join " " (p :: q :: qs)))) high_value_keywords)).
    assert (Hk : (k <= k')%nat).
    { apply filter_length_mono. intros kw Hin.
      change (join " " (p :: q :: qs)) with (p ++ String " " (join " " (q :: qs))).
      rewrite lower_app. apply contains_app_r.
      change (lower (String " " (join " " (q :: qs))))
        with (String " " (lower (join " " (q :: qs)))).
      change (String " " (lower (join " " (q :: qs))))
        with (" " ++ lower (join " " (q :: qs))).
      now apply contains_app_r. }
    destruct (Z.ltb_spec 100 (Z.min (Z.of_nat n * 25) 100 + Z.min (Z.of_nat k * 10) 30));
      destruct (Z.ltb_spec 100 (Z.min (Z.of_nat (S n) * 25) 100
                                + Z.min (Z.of_nat k' * 10) 30));
      eexists; eexists; (split; [reflexivity|]); (split; [reflexivity|]); lia.
  - intros Hnone. split; [|reflexivity].
    unfold _score_need. change (join " " [p]) with p. rewrite Hnone. reflexivity.
Qed.

End RubricFacts.

Lemma need_score_with_one_more_pain_point_witness :
  ["manual processes"] <> [] /\
  exists z z',
    _score_need (F := Q) ["manual processes"] = of_int z /\
    _score_need (F := Q) ["data silos"; "manual processes"] = of_int z' /\ z <= z'.
Proof.
  assert (Hne : ["manual processes"] <> []) by discriminate.
  split; [exact Hne|].
  exact (proj1 (need_score_with_one_more_pain_point (F := Q) "data silos"
                  ["manual processes"]) Hne).
Defined.


